(** * Scenario dashboards: filtering, summarising and threshold scanning

    A shallow embedding of the two Streamlit entry points of the repository,
    [streamlit_kpi_app.py] (the KPI dashboard over the pipeline's pickled
    dataset) and [app.py] (the synthetic-data dashboard).

    Conventions of the embedding.
    - A pandas float column is a column of exact rationals ([Q]); an order
      comparison of two floats is exact, so masks and first-row look-ups are
      the ones of the script.  Arithmetic ([x * 0.99], [x / 1e6], [x - c]) is
      the exact one, without binary rounding, but where the rounding of a
      float operation decides which rows a mask keeps or which digit a table
      shows: the weekly bounds [lo / 52] and [hi / 52], the weekly products
      by 52 and numpy's [round] to decimals go through [round_double], the
      rounding of binary64.
    - A missing value (NaN) only occurs in the marginal-ROAS columns, where
      the cell is an [option Q].  Every comparison with a missing cell is
      false, as in pandas.
    - An f-string that formats a number for display is not applied: a table
      row or a metric card holds the number that the script hands to the
      format.
    - A Streamlit call that draws in the main area appends one [element]
      to the page; [st.stop] and an uncaught exception end the run.  The
      widgets of the sidebar are the run's inputs ([controls]); of them the
      page keeps the slider, whose bounds the script computes.  Pictographs
      in labels are left out. *)

From Stdlib Require Import ZArith QArith Qround Qabs List String Bool Lia Lqa.
From Stdlib Require Import Sorted SetoidList.
Import ListNotations.

Local Open Scope Q_scope.

(** ** Numbers *)

Module Num.

(** [x < y] on floats, as a test. *)
Definition Qlt_bool (x y : Q) : bool :=
  (Qnum x * QDen y <? Qnum y * QDen x)%Z.

(** The integer literal [1_000_000] and its float [1e6]. *)
Definition million : Z := 1000000.
Definition mega : Q := inject_Z million.

(** [int(x)]: truncation towards zero. *)
Definition py_int (x : Q) : Z := (Qnum x ÷ Zpos (Qden x))%Z.

(** [rint]: the nearest integer, a tie going to the even one. *)
Definition rint (x : Q) : Z :=
  let f := Qfloor x in
  let twice := 2 * (x - inject_Z f) in
  if Qlt_bool twice 1 then f
  else if Qlt_bool 1 twice then (f + 1)%Z
  else if Z.even f then f else (f + 1)%Z.

(** [10 ** k] for a natural [k]. *)
Definition pow10 (k : nat) : Q := inject_Z (10 ^ Z.of_nat k).

(** [2 ** e] for an integer [e]. *)
Definition two_pow (e : Z) : Q := Qpower 2 e.

(** The binary64 float nearest to [x], a tie going to the even mantissa:
    [x] is scaled by a power of two into [2^52, 2^53), rounded with [rint]
    and scaled back.  Magnitudes are taken within the normal range of
    binary64 (no overflow to infinity, no subnormal). *)
Definition round_double (x : Q) : Q :=
  if Qeq_bool x 0 then 0
  else
    let a := Qabs x in
    let e0 := (Z.log2 (Qnum a) - Z.log2 (Zpos (Qden a)) - 52)%Z in
    let e := if Qlt_bool (a / two_pow e0) (two_pow 52) then (e0 - 1)%Z else e0 in
    let nearest := inject_Z (rint (a / two_pow e)) * two_pow e in
    Qred (if Qlt_bool x 0 then - nearest else nearest).

(** [x / y] and [x * y] on floats: the exact result, rounded once. *)
Definition fdiv (x y : Q) : Q := round_double (x / y).
Definition fmul (x y : Q) : Q := round_double (x * y).

(** [round(decimals)] of numpy for [decimals >= 0]: [rint] alone for 0
    decimals; otherwise the float product by [10 ** decimals], [rint], and
    the float quotient by [10 ** decimals]. *)
Definition round_dec (decimals : nat) (x : Q) : Q :=
  match decimals with
  | O => inject_Z (rint x)
  | S _ => fdiv (inject_Z (rint (fmul x (pow10 decimals)))) (pow10 decimals)
  end.

(** [round(-k)] of numpy: divide by [10 ** k], [rint], multiply back. *)
Definition round_neg (k : nat) (x : Q) : Q :=
  inject_Z (rint (x / pow10 k)) * pow10 k.

(** [Series.unique()] on floats: first occurrences, in order. *)
Fixpoint unique (s : list Q) : list Q :=
  match s with
  | [] => []
  | x :: s' => x :: List.filter (fun y => negb (Qeq_bool y x)) (unique s')
  end.

End Num.
Export Num.

(** ** Data model *)

(** One row of [annual_df]: a simulated annual spend level. *)
Record scenario : Type := mkScenario {
  total_annual_spend : Q;
  total_annual_sales : Q;
  total_annual_traffic : Q;
  total_annual_transactions : Q;
  blended_roas : Q;
  blended_conversion_rate : Q;
  blended_aov : Q;
  marginal_roas : option Q;
  marginal_roas_from_137m : option Q
}.

(** [annual_df]: its rows, and whether the pipeline wrote the optional
    column [marginal_roas_from_137m]. *)
Record annual_frame : Type := mkAnnual {
  has_137m_column : bool;
  annual_rows : list scenario
}.

(** One row of [baseline_df], keyed by weekly spend. *)
Record baseline : Type := mkBaseline {
  weekly_spend : Q;
  sales : Q;
  sales_increase : option Q;
  weekly_marginal_roas : option Q
}.

(** ** Data-frame primitives *)

Module Frame.

(** [df[mask]]: the rows whose mask bit is set, in frame order. *)
Definition select {A : Type} (mask : A -> bool) (df : list A) : list A :=
  List.filter mask df.

(** [df.empty] *)
Definition empty {A : Type} (df : list A) : bool :=
  match df with [] => true | _ :: _ => false end.

(** [df.iloc[0]]: [None] stands for pandas' IndexError. *)
Definition iloc0 {A : Type} (df : list A) : option A :=
  match df with [] => None | r :: _ => Some r end.

(** The cell is not NaN. *)
Definition notna {B : Type} (cell : option B) : bool :=
  match cell with Some _ => true | None => false end.

(** [df.dropna(subset=[col])] *)
Definition dropna {A B : Type} (col : A -> option B) (df : list A) : list A :=
  List.filter (fun r => notna (col r)) df.

(** [df[col] < x] on a column with missing cells: false on NaN. *)
Definition cell_lt {A : Type} (col : A -> option Q) (x : Q) (r : A) : bool :=
  match col r with Some v => Qlt_bool v x | None => false end.

(** [Series.max()] of a float column without missing cells; [None] is the
    NaN that pandas returns on an empty column. *)
Fixpoint series_max (s : list Q) : option Q :=
  match s with
  | [] => None
  | x :: s' =>
      match series_max s' with
      | None => Some x
      | Some m => Some (if Qlt_bool x m then m else x)
      end
  end.

(** [Series.min()] *)
Fixpoint series_min (s : list Q) : option Q :=
  match s with
  | [] => None
  | x :: s' =>
      match series_min s' with
      | None => Some x
      | Some m => Some (if Qlt_bool m x then m else x)
      end
  end.

(** The first row whose cell equals [m]. *)
Fixpoint first_at {A : Type} (col : A -> Q) (m : Q) (df : list A) : option A :=
  match df with
  | [] => None
  | r :: df' => if Qeq_bool (col r) m then Some r else first_at col m df'
  end.

(** [df.loc[df[col].idxmax()]]: the row of the first occurrence of the
    column's maximum (the frame's index labels are unique); [None] stands
    for the ValueError of [idxmax] on an empty column. *)
Definition row_idxmax {A : Type} (col : A -> Q) (df : list A) : option A :=
  match series_max (map col df) with
  | None => None
  | Some m => first_at col m df
  end.

End Frame.

(** ** The page and the script monad *)

(** The exceptions the scripts can meet. *)
Inductive exn : Type :=
| FileNotFoundError
| PermissionError
| UnpicklingError
| KeyError (key : string)
| TypeError
| ValueError
| IndexError
| StreamlitAPIException.

(** The analysis modes of the radio button. *)
Inductive analysis : Type :=
| AnnualOverview
| MarginalReturns
| ScenarioComparison
| DataTable.

(** A row of the annual thresholds table (lines 330-336). *)
Record crossing : Type := mkCrossing {
  cr_threshold : Q;
  cr_annual_spend : Q;          (* in $M *)
  cr_incremental : Q;           (* in $M *)
  cr_annual_sales : Q;          (* in $M *)
  cr_blended_roas : Q
}.

(** A row of the weekly thresholds table (lines 345-350). *)
Record weekly_crossing : Type := mkWeekly {
  wc_threshold : Q;
  wc_weekly_spend : Q;
  wc_annual_spend : Q;
  wc_annual_sales : Q
}.

(** A row of the comparison table (lines 395-404). *)
Record comparison : Type := mkComparison {
  cmp_scenario : nat;
  cmp_annual_spend : Q;         (* in $M *)
  cmp_annual_sales : Q;         (* in $M *)
  cmp_roas : Q;
  cmp_traffic : Q;
  cmp_conv_rate : Q;
  cmp_aov : Q;
  cmp_transactions : Q
}.

(** A row of the data table (lines 418-433). *)
Record display : Type := mkDisplay {
  d_annual_spend_m : Q;
  d_annual_sales_m : Q;
  d_roas : Q;
  d_conv_rate_pct : Q;
  d_aov : Q;
  d_annual_traffic : Q;
  d_marginal_roas : option Q;
  d_marginal_roas_137m : option (option Q)    (* the column may be absent *)
}.

(** What a metric card shows. *)
Inductive shown : Type :=
| Count (n : Z)
| Amount (x : option Q)         (* [None]: NaN *)
| Caption (s : string).

(** What the scripts draw. *)
Inductive element : Type :=
| ErrorBox (msg : string)
| WarningBox (msg : string)
| InfoBox (msg : string)
| Title (s : string)
| Header (s : string)
| Subheader (s : string)
| Markdown (s : string)
| Slider (label : string) (min_value max_value : Z)
| Metric (label : string) (value delta : shown)
| Chart (title : string)
| ThresholdTable (rows : list crossing)
| WeeklyThresholdTable (rows : list weekly_crossing)
| ComparisonTable (rows : list comparison)
| DisplayTable (rows : list display)
| DownloadButton (file_name : string) (rows : list display).

(** How a run, or a part of one, ends. *)
Inductive outcome (A : Type) : Type :=
| Ok (a : A)
| Stopped                       (* [st.stop()] *)
| Raised (e : exn).             (* an exception nobody caught *)

Arguments Ok {A} a.
Arguments Stopped {A}.
Arguments Raised {A} e.

(** A script step: the elements it draws, and how it ends. *)
Definition ui (A : Type) : Type := list element * outcome A.

Definition ret {A : Type} (a : A) : ui A := ([], Ok a).

Definition bind {A B : Type} (m : ui A) (k : A -> ui B) : ui B :=
  match m with
  | (page, Ok a) => let (page', o) := k a in (page ++ page', o)
  | (page, Stopped) => (page, Stopped)
  | (page, Raised e) => (page, Raised e)
  end.

Definition emit (e : element) : ui unit := ([e], Ok tt).
Definition raise {A : Type} (e : exn) : ui A := ([], Raised e).
Definition st_stop {A : Type} : ui A := ([], Stopped).

(** [try: m except FileNotFoundError: h] *)
Definition except_not_found {A : Type} (m : ui A) (h : ui A) : ui A :=
  match m with
  | (page, Raised FileNotFoundError) => let (page', o) := h in (page ++ page', o)
  | _ => m
  end.

(** A look-up that raises [e] where pandas or Python does. *)
Definition or_raise {A : Type} (e : exn) (o : option A) : ui A :=
  match o with Some a => ret a | None => raise e end.

Declare Scope ui_scope.
Delimit Scope ui_scope with ui.
Notation "x <- m ;; k" := (bind m (fun x => k))
  (at level 61, m at next level, right associativity) : ui_scope.
Notation "m ;;; k" := (bind m (fun _ => k))
  (at level 61, right associativity) : ui_scope.

(** [if cond: body] *)
Definition when (cond : bool) (body : ui unit) : ui unit :=
  if cond then body else ret tt.

(** ** Filter Engine *)

(** The sidebar's selections. *)
Record controls : Type := mkControls {
  spend_range : Z * Z;          (* dual slider, in $M *)
  min_roas : Q;                 (* minimum ROAS threshold *)
  analysis_type : analysis;
  scenario_picks : option nat * option nat * option nat;
                                (* positions picked in the three select
                                   boxes; [None]: the box's default *)
  today : string                (* [datetime.now()] as [%Y%m%d] *)
}.

(** The slider's bounds in currency units. *)
Definition spend_lo (c : controls) : Q := inject_Z (fst (spend_range c) * million).
Definition spend_hi (c : controls) : Q := inject_Z (snd (spend_range c) * million).

(** The mask of lines 79-81. *)
Definition filter_mask (c : controls) (r : scenario) : bool :=
  Qle_bool (spend_lo c) (total_annual_spend r)
  && Qle_bool (total_annual_spend r) (spend_hi c)
  && Qle_bool (min_roas c) (blended_roas r).

(** [filtered_df] *)
Definition filter_engine (c : controls) (annual_df : list scenario) : list scenario :=
  Frame.select (filter_mask c) annual_df.

(** The filter's contract, as the specification words it. *)
Definition admits (c : controls) (r : scenario) : Prop :=
  spend_lo c <= total_annual_spend r /\
  total_annual_spend r <= spend_hi c /\
  min_roas c <= blended_roas r.

Definition violates (c : controls) (r : scenario) : Prop :=
  total_annual_spend r < spend_lo c \/
  spend_hi c < total_annual_spend r \/
  blended_roas r < min_roas c.

(** [Selects P l out]: [out] is [l] with exactly the rows outside [P]
    struck out, the others kept in place. *)
Inductive Selects {A : Type} (P : A -> Prop) : list A -> list A -> Prop :=
| Selects_nil : Selects P [] []
| Selects_keep r l out : P r -> Selects P l out -> Selects P (r :: l) (r :: out)
| Selects_drop r l out : ~ P r -> Selects P l out -> Selects P (r :: l) out.

(** [Subseq s l]: [s] is [l] with some elements struck out. *)
Inductive Subseq {A : Type} : list A -> list A -> Prop :=
| Subseq_nil : Subseq [] []
| Subseq_cons x s l : Subseq s l -> Subseq (x :: s) (x :: l)
| Subseq_skip x s l : Subseq s l -> Subseq s (x :: l).

(** [FirstWith P l r]: [r] is the first row of [l] with [P]. *)
Definition FirstWith {A : Type} (P : A -> Prop) (l : list A) (r : A) : Prop :=
  exists before after,
    l = before ++ r :: after /\ P r /\ Forall (fun x => ~ P x) before.

(** ** Metric Summarizer (lines 93-127) *)

Local Open Scope string_scope.
Local Open Scope list_scope.
Local Open Scope ui_scope.

(** Float arithmetic on a value that may be NaN. *)
Definition nan1 (f : Q -> Q) (x : option Q) : option Q := option_map f x.

Definition nan2 (f : Q -> Q -> Q) (x y : option Q) : option Q :=
  match x, y with
  | Some a, Some b => Some (f a b)
  | _, _ => None
  end.

Definition in_millions (x : Q) : Q := x / mega.

(** The four cards of the key metrics row. *)
Definition total_scenarios (annual_df filtered_df : list scenario) : ui unit :=
  emit (Metric "Total Scenarios"
          (Count (Z.of_nat (List.length filtered_df)))
          (Count (Z.of_nat (List.length filtered_df) - Z.of_nat (List.length annual_df)))).

Definition max_annual_sales (annual_df filtered_df : list scenario) : ui unit :=
  when (negb (Frame.empty filtered_df))
    (let max_sales := Frame.series_max (map total_annual_sales filtered_df) in
     emit (Metric "Max Annual Sales"
             (Amount (nan1 in_millions max_sales))
             (Amount (nan2 Qminus
                        (nan1 in_millions max_sales)
                        (nan1 in_millions
                           (Frame.series_min (map total_annual_sales annual_df))))))).

Definition best_roas_card (annual_df filtered_df : list scenario) : ui unit :=
  when (negb (Frame.empty filtered_df))
    (let best_roas := Frame.series_max (map blended_roas filtered_df) in
     emit (Metric "Best ROAS"
             (Amount best_roas)
             (Amount (nan2 Qminus best_roas
                        (Frame.series_min (map blended_roas annual_df)))))).

Definition optimal_spend_card (filtered_df : list scenario) : ui unit :=
  when (negb (Frame.empty filtered_df))
    (optimal <- or_raise ValueError (Frame.row_idxmax blended_roas filtered_df) ;;
     let optimal_spend := total_annual_spend optimal in
     emit (Metric "Optimal Spend"
             (Amount (Some (in_millions optimal_spend)))
             (Caption "Highest ROAS"))).

Definition key_metrics (annual_df filtered_df : list scenario) : ui unit :=
  total_scenarios annual_df filtered_df ;;;
  max_annual_sales annual_df filtered_df ;;;
  best_roas_card annual_df filtered_df ;;;
  optimal_spend_card filtered_df.

(** ** Threshold Scanner (lines 320-350) *)

(** The literal [137_200_000] of line 329. *)
Definition reference_spend : Q := inject_Z 137200000.

Definition marginal_thresholds : list Q := [3.0; 2.5; 2.0; 1.5; 1.0; 0.5].
Definition weekly_thresholds : list Q := [4.0; 3.5; 3.0; 2.5; 2.0; 1.5; 1.0].

(** The dictionary appended at lines 329-336. *)
Definition crossing_row (threshold : Q) (first_below : scenario) : crossing :=
  let incremental_spend := total_annual_spend first_below - reference_spend in
  {| cr_threshold := threshold;
     cr_annual_spend := in_millions (total_annual_spend first_below);
     cr_incremental := in_millions incremental_spend;
     cr_annual_sales := in_millions (total_annual_sales first_below);
     cr_blended_roas := blended_roas first_below |}.

(** One turn of the loop of line 325. *)
Definition scan_step (marginal_data : list scenario)
    (thresholds_data : list crossing) (threshold : Q) : list crossing :=
  let below_threshold :=
    Frame.select (Frame.cell_lt marginal_roas_from_137m threshold) marginal_data in
  match below_threshold with
  | [] => thresholds_data
  | first_below :: _ => thresholds_data ++ [crossing_row threshold first_below]
  end.

(** The loop of lines 322-336 over a list of thresholds. *)
Definition threshold_scanner (thresholds : list Q) (marginal_data : list scenario)
  : list crossing :=
  fold_left (scan_step marginal_data) thresholds [].

(** [marginal_data] of line 323. *)
Definition marginal_view (filtered_df : list scenario) : list scenario :=
  Frame.dropna marginal_roas_from_137m filtered_df.

(** The scanner as the dashboard runs it: on the filtered view. *)
Definition dashboard_crossings (c : controls) (annual_df : list scenario) : list crossing :=
  threshold_scanner marginal_thresholds (marginal_view (filter_engine c annual_df)).

(** The fall-back on the weekly table (lines 339-350). *)
Definition weekly_row (threshold : Q) (first_below : baseline) : weekly_crossing :=
  let annual_spend := fmul (weekly_spend first_below) 52 in
  {| wc_threshold := threshold;
     wc_weekly_spend := weekly_spend first_below;
     wc_annual_spend := annual_spend;
     wc_annual_sales := fmul (sales first_below) 52 |}.

Definition weekly_step (baseline_filtered : list baseline)
    (thresholds_data : list weekly_crossing) (threshold : Q) : list weekly_crossing :=
  let below_threshold :=
    Frame.select (Frame.cell_lt weekly_marginal_roas threshold) baseline_filtered in
  match below_threshold with
  | [] => thresholds_data
  | first_below :: _ => thresholds_data ++ [weekly_row threshold first_below]
  end.

Definition weekly_scanner (thresholds : list Q) (baseline_filtered : list baseline)
  : list weekly_crossing :=
  fold_left (weekly_step baseline_filtered) thresholds [].

(** [baseline_filtered] of lines 224-227: the bounds are the integers
    [spend_range[i] * 1_000_000] divided by 52 as floats. *)
Definition baseline_mask (c : controls) (b : baseline) : bool :=
  Qle_bool (fdiv (spend_lo c) 52) (weekly_spend b)
  && Qle_bool (weekly_spend b) (fdiv (spend_hi c) 52).

(** ** Scenario Comparator (lines 356-408) *)

(** [filtered_df['total_annual_spend'].round(-6).unique()] *)
Definition spend_options (filtered_df : list scenario) : list Q :=
  unique (map (fun r => round_neg 6 (total_annual_spend r)) filtered_df).

(** [st.selectbox(options, index)]: the option at the picked position, at
    the default [index] without a pick, and [None] when there is no option. *)
Definition selectbox (options : list Q) (index : Z) (pick : option nat) : option Q :=
  let default := nth_error options (Z.to_nat index) in
  match pick with
  | None => default
  | Some i =>
      match nth_error options i with
      | Some x => Some x
      | None => default
      end
  end.

(** The mask of lines 391-392. *)
Definition within_tolerance (spend : Q) (r : scenario) : bool :=
  Qle_bool (spend * 0.99) (total_annual_spend r)
  && Qle_bool (total_annual_spend r) (spend * 1.01).

(** [scenario_data] of lines 390-393; [None * 0.99] is a TypeError. *)
Definition scenario_lookup (filtered_df : list scenario) (selected : option Q)
  : ui scenario :=
  spend <- or_raise TypeError selected ;;
  or_raise IndexError
    (Frame.iloc0 (Frame.select (within_tolerance spend) filtered_df)).

(** The dictionary appended at lines 395-404. *)
Definition comparison_row (i : nat) (scenario_data : scenario) : comparison :=
  {| cmp_scenario := i;
     cmp_annual_spend := in_millions (total_annual_spend scenario_data);
     cmp_annual_sales := in_millions (total_annual_sales scenario_data);
     cmp_roas := blended_roas scenario_data;
     cmp_traffic := total_annual_traffic scenario_data;
     cmp_conv_rate := blended_conversion_rate scenario_data;
     cmp_aov := blended_aov scenario_data;
     cmp_transactions := total_annual_transactions scenario_data |}.

(** The loop of line 389, from position [i] on. *)
Fixpoint comparator (filtered_df : list scenario) (i : nat)
    (spends : list (option Q)) (scenarios : list comparison)
  : ui (list comparison) :=
  match spends with
  | [] => ret scenarios
  | spend :: rest =>
      scenario_data <- scenario_lookup filtered_df spend ;;
      comparator filtered_df (S i) rest
        (scenarios ++ [comparison_row i scenario_data])
  end.

(** The three select boxes of lines 364-385. *)
Definition scenario_selection (c : controls) (filtered_df : list scenario)
  : list (option Q) :=
  let options := spend_options filtered_df in
  let last := (Z.of_nat (List.length options) - 1)%Z in
  let '(pick1, pick2, pick3) := scenario_picks c in
  [ selectbox options 0 pick1;
    selectbox options (Z.min last 5) pick2;
    selectbox options (Z.min last 10) pick3 ].

(** ** Data Loader (lines 29-44) *)

(** What the pickle can hold under a key. *)
Inductive pyobj : Type :=
| PyAnnual (df : annual_frame)
| PyBaseline (df : list baseline)
| PyTimestamp (stamp : string)
| PyOther.

Definition dict : Type := list (string * pyobj).

(** [streamlit_data.pkl] at start-up. *)
Inductive file_state : Type :=
| Absent                        (* no such file *)
| Denied                        (* the file cannot be opened for reading *)
| Corrupt                       (* the bytes are not a pickle *)
| Pickled (d : dict).

(** [with open('streamlit_data.pkl', 'rb') as f: return pickle.load(f)] *)
Definition open_and_unpickle (f : file_state) : ui dict :=
  match f with
  | Absent => raise FileNotFoundError
  | Denied => raise PermissionError
  | Corrupt => raise UnpicklingError
  | Pickled d => ret d
  end.

Definition pipeline_missing : string :=
  "Pipeline data not found. Please run the KPI modeling pipeline first.".

Definition load_pipeline_data (f : file_state) : ui dict :=
  except_not_found (open_and_unpickle f)
    (emit (ErrorBox pipeline_missing) ;;; st_stop).

(** [d[key]] *)
Fixpoint dict_get (d : dict) (key : string) : option pyobj :=
  match d with
  | [] => None
  | (k, v) :: d' => if String.eqb k key then Some v else dict_get d' key
  end.

Definition subscript (d : dict) (key : string) : ui pyobj :=
  or_raise (KeyError key) (dict_get d key).

Definition has_key (d : dict) (key : string) : Prop := dict_get d key <> None.

Definition as_annual (o : pyobj) : ui annual_frame :=
  match o with PyAnnual df => ret df | _ => raise TypeError end.

Definition as_baseline (o : pyobj) : ui (list baseline) :=
  match o with PyBaseline df => ret df | _ => raise TypeError end.

Definition as_timestamp (o : pyobj) : ui string :=
  match o with PyTimestamp s => ret s | _ => raise TypeError end.

(** ** Analysis sections (lines 133-450) *)

Definition no_match_warning : string :=
  "No scenarios match your filters. Please adjust the controls.".

(** Lines 133-209. *)
Definition annual_overview (filtered_df : list scenario) : ui unit :=
  emit (Header "Annual Performance Overview") ;;;
  if Frame.empty filtered_df then emit (WarningBox no_match_warning)
  else
    emit (Chart "Annual Sales vs Spend (colored by ROAS)") ;;;
    emit (Chart "ROAS Curve - Diminishing Returns") ;;;
    emit (Subheader "Key Performance Indicators") ;;;
    emit (Chart "Conversion Rate vs Spend") ;;;
    emit (Chart "Average Order Value vs Spend") ;;;
    emit (Chart "Annual Traffic vs Spend").

(** Lines 211-354. *)
Definition marginal_returns (c : controls) (has_marginal_137m : bool)
    (baseline_obj : pyobj) (filtered_df : list scenario) : ui unit :=
  emit (Header "Marginal Returns Analysis") ;;;
  if Frame.empty filtered_df then emit (WarningBox no_match_warning)
  else
    when has_marginal_137m
      (emit (InfoBox "Showing marginal ROAS calculated from $137M baseline")) ;;;
    baseline_df <- as_baseline baseline_obj ;;
    let baseline_filtered := Frame.select (baseline_mask c) baseline_df in
    emit (Chart (if has_marginal_137m
                 then "Marginal ROAS from $137M Baseline"
                 else "Weekly Marginal ROAS")) ;;;
    emit (Chart (if has_marginal_137m
                 then "Blended vs Marginal ROAS from $137M Baseline"
                 else "Incremental Sales per $25k Spend Increase")) ;;;
    emit (Subheader "Marginal Returns Thresholds") ;;;
    if has_marginal_137m then
      let marginal_data := marginal_view filtered_df in
      let thresholds_data := threshold_scanner marginal_thresholds marginal_data in
      when (negb (Frame.empty thresholds_data))
        (emit (ThresholdTable thresholds_data))
    else
      let thresholds_data := weekly_scanner weekly_thresholds baseline_filtered in
      when (negb (Frame.empty thresholds_data))
        (emit (WeeklyThresholdTable thresholds_data)).

(** Lines 356-408. *)
Definition scenario_comparison (c : controls) (filtered_df : list scenario) : ui unit :=
  emit (Header "Scenario Comparison") ;;;
  emit (Subheader "Select Scenarios to Compare") ;;;
  scenarios <- comparator filtered_df 1 (scenario_selection c filtered_df) [] ;;
  emit (ComparisonTable scenarios).

(** A row of [display_df[columns_to_show]] (lines 417-434), of a table
    that has the [marginal_roas] column of the data model. *)
Definition display_row (has_marginal_137m : bool) (r : scenario) : display :=
  {| d_annual_spend_m := round_dec 1 (fdiv (total_annual_spend r) mega);
     d_annual_sales_m := round_dec 1 (fdiv (total_annual_sales r) mega);
     d_roas := round_dec 2 (blended_roas r);
     d_conv_rate_pct := round_dec 2 (fmul (blended_conversion_rate r) 100);
     d_aov := round_dec 0 (blended_aov r);
     d_annual_traffic := round_dec 0 (total_annual_traffic r);
     d_marginal_roas := nan1 (round_dec 3) (marginal_roas r);
     d_marginal_roas_137m :=
       if has_marginal_137m
       then Some (nan1 (round_dec 3) (marginal_roas_from_137m r))
       else None |}.

(** Lines 410-450. *)
Definition data_table (c : controls) (has_marginal_137m : bool)
    (filtered_df : list scenario) : ui unit :=
  emit (Header "Complete Data Table") ;;;
  if Frame.empty filtered_df then emit (WarningBox no_match_warning)
  else
    let display_df := map (display_row has_marginal_137m) filtered_df in
    when has_marginal_137m
      (emit (InfoBox "Table includes Marginal ROAS calculated from $137M baseline")) ;;;
    emit (DisplayTable display_df) ;;;
    emit (DownloadButton (String.append "kpi_projections_" (String.append (today c) ".csv")) display_df).

(** ** The KPI dashboard, top to bottom *)

(** [2 ** 53 - 1], the largest integer a widget takes as a bound. *)
Definition max_safe_integer : Z := 9007199254740991.

(** What [st.slider] checks of the bounds it is called with on lines 56-62,
    where the value is [(0, max_value)]: the bounds are widened to hold the
    value, must leave room between them, and must be integers that the
    browser holds exactly. *)
Definition slider_accepts (min_value max_value : Z) : bool :=
  let lowest := Z.min (Z.min 0 max_value) min_value in
  let highest := Z.max (Z.max 0 max_value) max_value in
  ((lowest <? highest)
   && (- max_safe_integer <=? lowest)
   && (highest <=? max_safe_integer))%Z.

(** Lines 53-62; [int(nan)] is a ValueError, and bounds that the slider
    refuses are a StreamlitAPIException. *)
Definition spend_slider (annual_df : list scenario) : ui unit :=
  lowest <- or_raise ValueError
              (Frame.series_min (map total_annual_spend annual_df)) ;;
  let min_annual_spend := py_int lowest in
  highest <- or_raise ValueError
               (Frame.series_max (map total_annual_spend annual_df)) ;;
  let max_annual_spend := py_int highest in
  let min_value := (min_annual_spend / million)%Z in
  let max_value := (max_annual_spend / million)%Z in
  if slider_accepts min_value max_value
  then emit (Slider "Annual Spend Range ($M)" min_value max_value)
  else raise StreamlitAPIException.

(** [spend_range c] is a value that the slider over [annual_df] returns:
    its value [(0, max_value)] of line 60, or another position within the
    bounds, widened to hold that value. *)
Definition SliderPosition (annual_df : list scenario) (c : controls) : Prop :=
  exists min_value max_value,
    spend_slider annual_df
    = ([Slider "Annual Spend Range ($M)" min_value max_value], Ok tt) /\
    (Z.min 0 min_value <= fst (spend_range c))%Z /\
    (fst (spend_range c) <= snd (spend_range c))%Z /\
    (snd (spend_range c) <= max_value)%Z.

Definition analysis_section (c : controls) (annual : annual_frame)
    (baseline_obj : pyobj) (filtered_df : list scenario) : ui unit :=
  match analysis_type c with
  | AnnualOverview => annual_overview filtered_df
  | MarginalReturns =>
      marginal_returns c (has_137m_column annual) baseline_obj filtered_df
  | ScenarioComparison => scenario_comparison c filtered_df
  | DataTable => data_table c (has_137m_column annual) filtered_df
  end.

Definition footer (data : dict) : ui unit :=
  emit (Markdown "---") ;;;
  emit (Markdown "**Data Generated:**") ;;;
  stamp <- (o <- subscript data "data_timestamp" ;; as_timestamp o) ;;
  emit (Markdown (String.append "Pipeline run: " stamp)) ;;;
  emit (Markdown "**Model Details:**") ;;;
  emit (Markdown "Mathematical models fitted to historical data") ;;;
  emit (Markdown "**Usage:**") ;;;
  emit (Markdown "Adjust filters to explore different scenarios").

(** The script, from the file and the widgets' values to the page; the
    slider's value is [spend_range c], a [SliderPosition] in a run of the
    dashboard. *)
Definition kpi_app (f : file_state) (c : controls) : ui unit :=
  data <- load_pipeline_data f ;;
  annual_obj <- subscript data "annual_projections" ;;
  baseline_obj <- subscript data "baseline_projections" ;;
  holiday_obj <- subscript data "holiday_projections" ;;
  summary_obj <- subscript data "summary_metrics" ;;
  annual <- as_annual annual_obj ;;
  let annual_df := annual_rows annual in
  spend_slider annual_df ;;;
  let filtered_df := filter_engine c annual_df in
  emit (Title "E-commerce KPI Projections 2026") ;;;
  emit (Markdown "*Data-driven spend optimization using fitted mathematical models*") ;;;
  key_metrics annual_df filtered_df ;;;
  analysis_section c annual baseline_obj filtered_df ;;;
  footer data.

(** ** The synthetic-data dashboard ([app.py]) *)

Module Synthetic.

(** The options of the scenario select box (lines 21-24). *)
Inductive scenario_type : Type :=
| Baseline
| Optimistic
| Pessimistic
| Conservative.

Definition label (s : scenario_type) : string :=
  match s with
  | Baseline => "Baseline"
  | Optimistic => "Optimistic"
  | Pessimistic => "Pessimistic"
  | Conservative => "Conservative"
  end.

Record date : Type := mkDate { year : Z; month : Z; day : Z }.

Definition is_leap (y : Z) : bool :=
  ((y mod 4 =? 0) && negb (y mod 100 =? 0) || (y mod 400 =? 0))%Z.

Definition days_in_month (y m : Z) : Z :=
  if (m =? 2)%Z then (if is_leap y then 29 else 28)%Z
  else if ((m =? 4) || (m =? 6) || (m =? 9) || (m =? 11))%Z then 30%Z
  else 31%Z.

Definition date_le (a b : date) : bool :=
  ((year a <? year b)
   || ((year a =? year b) && ((month a <? month b)
       || ((month a =? month b) && (day a <=? day b)))))%Z.

(** [pd.date_range(start, end, freq="M")]: the month ends from [start] to
    [end], over the [years] the two dates span. *)
Definition date_range_month_end (start finish : date) (years : list Z) : list date :=
  List.filter (fun d => date_le start d && date_le d finish)
    (flat_map (fun y => map (fun m => mkDate y m (days_in_month y m))
                          [1; 2; 3; 4; 5; 6; 7; 8; 9; 10; 11; 12]%Z)
       years).

(** [dates] of line 33. *)
Definition dates : list date :=
  date_range_month_end (mkDate 2024 1 1) (mkDate 2026 12 31) [2024; 2025; 2026]%Z.

(** [df]: the dictionary of columns of lines 34-40. *)
Record frame : Type := mkFrame {
  Date : list date;
  Revenue : list Z;
  Costs : list Z;
  Profit : list Z
}.

(** What [app.py] draws. *)
Inductive widget : Type :=
| WTitle (s : string)
| WMarkdown (s : string)
| WSubheader (s : string)
| WLineChart (title : string) (df : frame)
| WMetric (label : string) (value : Z)
| WBarChart (title : string) (bars : list (string * Z))
| WDataFrame (df : frame).

(** A chart without its title. *)
Definition untitled (w : widget) : widget :=
  match w with
  | WLineChart _ df => WLineChart "" df
  | WBarChart _ bars => WBarChart "" bars
  | _ => w
  end.

Definition chart_title (w : widget) : option string :=
  match w with
  | WLineChart t _ => Some t
  | WBarChart t _ => Some t
  | _ => None
  end.

(** [Series.sum()] *)
Definition series_sum (s : list Z) : Z := fold_left Z.add s 0%Z.

(** The numbers on a page: every frame, metric and bar drawn. *)
Definition numbers (w : widget) : list Z :=
  match w with
  | WLineChart _ df | WDataFrame df => Revenue df ++ Costs df ++ Profit df
  | WMetric _ v => [v]
  | WBarChart _ bars => map snd bars
  | _ => []
  end.

Section Generator.

(** numpy's global generator: its state, and [np.random.randint(low, high,
    size)], which returns the draws and the state after them. *)
Variable rng : Type.
Variable randint : Z -> Z -> nat -> rng -> list Z * rng.

(** Lines 33-40. *)
Definition sample_data (g : rng) : frame * rng :=
  let n := List.length dates in
  let (revenue, g1) := randint 100000 500000 n g in
  let (costs, g2) := randint 50000 200000 n g1 in
  let (profit, g3) := randint 20000 150000 n g2 in
  ({| Date := dates; Revenue := revenue; Costs := costs; Profit := profit |}, g3).

(** The script, from the select box's value and the generator's state to
    the page and the state left behind. *)
Definition app (selected : scenario_type) (g : rng) : list widget * rng :=
  let (df, g') := sample_data g in
  let total_revenue := series_sum (Revenue df) in
  let total_costs := series_sum (Costs df) in
  let total_profit := series_sum (Profit df) in
  ([ WTitle "2026 Scenarios Dashboard";
     WMarkdown "Welcome to the 2026 Scenarios Analysis Dashboard";
     WSubheader "Sample Data Visualization";
     WLineChart (String.append (label selected) " Scenario - Financial Trends") df;
     WSubheader "Key Metrics";
     WMetric "Total Revenue" total_revenue;
     WMetric "Total Costs" total_costs;
     WMetric "Total Profit" total_profit;
     WBarChart (String.append (label selected) " Scenario - Summary")
       [("Revenue", total_revenue); ("Costs", total_costs); ("Profit", total_profit)];
     WSubheader "Data Table";
     WDataFrame df;
     WMarkdown "---";
     WMarkdown "Dashboard created with Streamlit" ],
   g').

End Generator.

(** A generator to run the script with: a linear congruential one. *)
Fixpoint lcg_draws (low high : Z) (n : nat) (g : Z) : list Z * Z :=
  match n with
  | O => ([], g)
  | S n' =>
      let g' := ((1103515245 * g + 12345) mod 2147483648)%Z in
      let (rest, g'') := lcg_draws low high n' g' in
      ((low + g' mod (high - low))%Z :: rest, g'')
  end.

End Synthetic.

(** ** Contracts of the scanner *)

(** The scanned cell of a record lies strictly below, or at or above, a
    threshold; a missing cell does neither. *)
Definition Below (threshold : Q) (r : scenario) : Prop :=
  exists v, marginal_roas_from_137m r = Some v /\ v < threshold.

Definition AtLeast (threshold : Q) (r : scenario) : Prop :=
  exists v, marginal_roas_from_137m r = Some v /\ threshold <= v.

(** [r] is the crossing of [threshold] in [data]: the first record below
    it, every record before being at or above it. *)
Definition Crossing (threshold : Q) (data : list scenario) (r : scenario) : Prop :=
  exists before after,
    data = before ++ r :: after /\
    Below threshold r /\
    Forall (AtLeast threshold) before /\
    (before = [] \/ exists earlier previous,
        before = earlier ++ [previous] /\ AtLeast threshold previous).

(** What one threshold contributes to the scanner's table. *)
Definition crossing_of (data : list scenario) (threshold : Q) : list crossing :=
  match Frame.select (Frame.cell_lt marginal_roas_from_137m threshold) data with
  | [] => []
  | first_below :: _ => [crossing_row threshold first_below]
  end.

Definition has_below (data : list scenario) (threshold : Q) : bool :=
  existsb (Frame.cell_lt marginal_roas_from_137m threshold) data.

(** ** Worked examples of the specification *)

(** A record from the columns the examples give; the other columns are 0
    and the scanned cell is the given ROAS. *)
Definition sample (spend sales roas : Q) : scenario :=
  {| total_annual_spend := spend;
     total_annual_sales := sales;
     total_annual_traffic := 0;
     total_annual_transactions := 0;
     blended_roas := roas;
     blended_conversion_rate := 0;
     blended_aov := 0;
     marginal_roas := None;
     marginal_roas_from_137m := Some roas |}.

(** [(spend=100M, roas=3.0), (spend=150M, roas=2.2), (spend=200M, roas=1.8)] *)
Definition scan_at_100 : scenario := sample 100000000 0 3.0.
Definition scan_at_150 : scenario := sample 150000000 0 2.2.
Definition scan_at_200 : scenario := sample 200000000 0 1.8.
Definition scan_example : list scenario := [scan_at_100; scan_at_150; scan_at_200].

(** [(spend=100M, sales=250M, roas=2.5), (spend=200M, sales=400M, roas=2.0)] *)
Definition summary_at_100 : scenario := sample 100000000 250000000 2.5.
Definition summary_at_200 : scenario := sample 200000000 400000000 2.0.
Definition summary_example : list scenario := [summary_at_100; summary_at_200].

(** Selections that keep every record of the examples. *)
Definition wide_open (mode : analysis) : controls :=
  {| spend_range := (0, 1000)%Z;
     min_roas := 0.0;
     analysis_type := mode;
     scenario_picks := (None, None, None);
     today := "20260101" |}.

(** The slider at its value of line 60 over the summary example, and a
    ROAS threshold above the ROAS of its records. *)
Definition roas_above (mode : analysis) : controls :=
  {| spend_range := (0, 200)%Z;
     min_roas := 3.0;
     analysis_type := mode;
     scenario_picks := (None, None, None);
     today := "20260101" |}.

(** A table whose first record below the thresholds lies under the
    slider's range:
    [(spend=50M, roas=0.4), (spend=150M, roas=0.3)], scanned within
    [$100M, $1000M]. *)
Definition early_at_50 : scenario := sample 50000000 0 0.4.
Definition early_at_150 : scenario := sample 150000000 0 0.3.
Definition early_example : list scenario := [early_at_50; early_at_150].

Definition from_100 : controls :=
  {| spend_range := (100, 1000)%Z;
     min_roas := 0.0;
     analysis_type := MarginalReturns;
     scenario_picks := (None, None, None);
     today := "20260101" |}.

(** ** Contracts of the summarizer *)

Definition Maximum (m : Q) (s : list Q) : Prop :=
  In m s /\ Forall (fun x => x <= m) s.

Definition Minimum (m : Q) (s : list Q) : Prop :=
  In m s /\ Forall (fun x => m <= x) s.

(** [r] achieves the maximum of [col] in [df], and no row before it does. *)
Definition FirstArgmax {A : Type} (col : A -> Q) (df : list A) (r : A) : Prop :=
  exists before after,
    df = before ++ r :: after /\
    Forall (fun x => col x <= col r) df /\
    Forall (fun x => col x < col r) before.

(** The key metrics row on a non-empty filtered table. *)
Definition Summarizes (annual_df filtered_df : list scenario) : Prop :=
  exists max_sales min_sales best_roas lowest_roas optimal,
    key_metrics annual_df filtered_df
    = ([ Metric "Total Scenarios"
           (Count (Z.of_nat (List.length filtered_df)))
           (Count (Z.of_nat (List.length filtered_df)
                   - Z.of_nat (List.length annual_df)));
         Metric "Max Annual Sales"
           (Amount (Some (in_millions max_sales)))
           (Amount (Some (in_millions max_sales - in_millions min_sales)));
         Metric "Best ROAS"
           (Amount (Some best_roas))
           (Amount (Some (best_roas - lowest_roas)));
         Metric "Optimal Spend"
           (Amount (Some (in_millions (total_annual_spend optimal))))
           (Caption "Highest ROAS") ],
       Ok tt) /\
    Maximum max_sales (map total_annual_sales filtered_df) /\
    Minimum min_sales (map total_annual_sales annual_df) /\
    in_millions max_sales - in_millions min_sales
    == in_millions (max_sales - min_sales) /\
    Maximum best_roas (map blended_roas filtered_df) /\
    Minimum lowest_roas (map blended_roas annual_df) /\
    blended_roas optimal == best_roas /\
    FirstArgmax blended_roas filtered_df optimal.

(** ** Contracts of the comparator *)

(** [r]'s spend lies within 1% of [target]. *)
Definition InBand (target : Q) (r : scenario) : Prop :=
  target * 0.99 <= total_annual_spend r /\ total_annual_spend r <= target * 1.01.

(** [target] is a whole number of millions, at most half a million away
    from [x]. *)
Definition NearestMillion (x target : Q) : Prop :=
  (exists n : Z, target = inject_Z n * pow10 6) /\
  target - 500000 <= x /\ x <= target + 500000.

(** A record that rounds to 1M and lies outside 1% of it. *)
Definition off_band : scenario := sample 1400000 0 2.0.

(** The comparison rows of records numbered from [i]. *)
Fixpoint rows_from (i : nat) (records : list scenario) : list comparison :=
  match records with
  | [] => []
  | r :: rest => comparison_row i r :: rows_from (S i) rest
  end.

(** A dataset as the pipeline writes it, over the summary example. *)
Definition example_pickle : dict :=
  [ ("annual_projections", PyAnnual {| has_137m_column := true;
                                       annual_rows := summary_example |});
    ("baseline_projections", PyBaseline []);
    ("holiday_projections", PyOther);
    ("summary_metrics", PyOther);
    ("data_timestamp", PyTimestamp "2026-01-01 00:00") ].

(** Two records at 1.4M and 2.0M: the first rounds to 1M and lies outside
    1% of it. *)
Definition small_at_2 : scenario := sample 2000000 0 2.0.
Definition small_pair : list scenario := [off_band; small_at_2].

Definition small_pair_pickle : dict :=
  [ ("annual_projections", PyAnnual {| has_137m_column := true;
                                       annual_rows := small_pair |});
    ("baseline_projections", PyBaseline []);
    ("holiday_projections", PyOther);
    ("summary_metrics", PyOther);
    ("data_timestamp", PyTimestamp "2026-01-01 00:00") ].

(** The slider at its value of line 60 over the two records. *)
Definition small_default : controls :=
  {| spend_range := (0, 2)%Z;
     min_roas := 0.0;
     analysis_type := ScenarioComparison;
     scenario_picks := (None, None, None);
     today := "20260101" |}.

(** The keys the dashboard reads. *)
Definition pipeline_keys : list string :=
  [ "annual_projections"; "baseline_projections"; "holiday_projections";
    "summary_metrics"; "data_timestamp" ].

(** ** Contracts and examples for the rest of the dashboard *)

(** A list of thresholds that never goes up. *)
Definition Descending (thresholds : list Q) : Prop :=
  StronglySorted (fun earlier later => later <= earlier) thresholds.

(** A table in ascending order of spend. *)
Definition AscendingSpend (df : list scenario) : Prop :=
  StronglySorted (fun a b => total_annual_spend a <= total_annual_spend b) df.

(** The weekly marginal ROAS of a row is there and below the threshold. *)
Definition WeeklyBelow (threshold : Q) (b : baseline) : Prop :=
  exists v, weekly_marginal_roas b = Some v /\ v < threshold.

(** What one threshold contributes to the weekly table. *)
Definition weekly_crossing_of (baseline_filtered : list baseline) (threshold : Q)
  : list weekly_crossing :=
  match Frame.select (Frame.cell_lt weekly_marginal_roas threshold) baseline_filtered with
  | [] => []
  | first_below :: _ => [weekly_row threshold first_below]
  end.

(** A weekly row whose spend is the float [15e6 / 52], and the slider from
    $15M to $20M. *)
Definition boundary_week : baseline :=
  {| weekly_spend := 4955731495384615 # 17179869184;
     sales := 600000;
     sales_increase := None;
     weekly_marginal_roas := Some 2.2 |}.

Definition from_15 : controls :=
  {| spend_range := (15, 20)%Z;
     min_roas := 0.0;
     analysis_type := MarginalReturns;
     scenario_picks := (None, None, None);
     today := "20260101" |}.

(** The keys read at start-up, in the order of lines 41-44. *)
Definition startup_keys : list string :=
  [ "annual_projections"; "baseline_projections"; "holiday_projections";
    "summary_metrics" ].

(** The first key of [keys] that [d] lacks. *)
Definition first_missing (d : dict) (keys : list string) : option string :=
  List.find (fun key => match dict_get d key with None => true | Some _ => false end) keys.

(** A dataset that holds the four keys read at start-up, the annual table
    under the first. *)
Definition Readable (d : dict) (annual : annual_frame) : Prop :=
  dict_get d "annual_projections" = Some (PyAnnual annual) /\
  first_missing d startup_keys = None.

(** The heading of an analysis section. *)
Definition section_header (mode : analysis) : string :=
  match mode with
  | AnnualOverview => "Annual Performance Overview"
  | MarginalReturns => "Marginal Returns Analysis"
  | ScenarioComparison => "Scenario Comparison"
  | DataTable => "Complete Data Table"
  end.

(** The page of a run whose filter leaves no record, down to the warning. *)
Definition empty_selection_page (min_value max_value : Z) (annual : annual_frame)
    (mode : analysis) : list element :=
  [ Slider "Annual Spend Range ($M)" min_value max_value;
    Title "E-commerce KPI Projections 2026";
    Markdown "*Data-driven spend optimization using fitted mathematical models*";
    Metric "Total Scenarios" (Count 0)
      (Count (0 - Z.of_nat (List.length (annual_rows annual))));
    Header (section_header mode);
    WarningBox no_match_warning ].

(** The example dataset without the time of the run. *)
Definition no_timestamp_pickle : dict := firstn 4 example_pickle.

(** The example dataset with the two tables only. *)
Definition tables_only_pickle : dict := firstn 2 example_pickle.

(** A dataset whose annual table has no record. *)
Definition empty_table_pickle : dict :=
  [ ("annual_projections", PyAnnual {| has_137m_column := true; annual_rows := [] |});
    ("baseline_projections", PyBaseline []);
    ("holiday_projections", PyOther);
    ("summary_metrics", PyOther);
    ("data_timestamp", PyTimestamp "2026-01-01 00:00") ].

(** A table whose highest spend, 200.4M, is not a whole number of millions. *)
Definition fractional_top : scenario := sample 200400000 400000000 2.0.
Definition fractional_example : list scenario := [summary_at_100; fractional_top].

(** The slider set to the bounds that [spend_slider] gives it. *)
Definition full_range (low high : Z) : controls :=
  {| spend_range := (low, high);
     min_roas := 0.0;
     analysis_type := AnnualOverview;
     scenario_picks := (None, None, None);
     today := "20260101" |}.

(** What numpy promises of [randint(low, high, size)]: [size] draws, each
    from [low] up to, not including, [high]. *)
Definition RandintContract {rng : Type}
    (randint : Z -> Z -> nat -> rng -> list Z * rng) : Prop :=
  forall low high n g,
    (low < high)%Z ->
    List.length (fst (randint low high n g)) = n /\
    Forall (fun v => (low <= v < high)%Z) (fst (randint low high n g)).

(** * Properties *)

(** ** Numbers and lists *)

Lemma Qlt_bool_iff x y : Qlt_bool x y = true <-> x < y.
Proof. unfold Qlt_bool, Qlt. apply Z.ltb_lt. Qed.

Lemma Qlt_bool_false x y : Qlt_bool x y = false <-> y <= x.
Proof. unfold Qlt_bool, Qle. rewrite Z.ltb_ge. reflexivity. Qed.


Section ListFacts.
Context {A : Type}.

Lemma Selects_filter (P : A -> Prop) (f : A -> bool) :
  (forall r, f r = true <-> P r) ->
  forall l, Selects P l (List.filter f l).
Proof.
  intros Hf l. induction l as [|r l IH]; simpl.
  - constructor.
  - destruct (f r) eqn:E.
    + apply Selects_keep; [apply Hf; exact E | exact IH].
    + apply Selects_drop; [|exact IH].
      intro HP. apply Hf in HP. congruence.
Qed.

Lemma Subseq_filter (f : A -> bool) l : Subseq (List.filter f l) l.
Proof.
  induction l as [|r l IH]; simpl; [constructor|].
  destruct (f r); constructor; exact IH.
Qed.

Lemma filter_fixed (f : A -> bool) l :
  List.filter f (List.filter f l) = List.filter f l.
Proof.
  induction l as [|r l IH]; simpl; [reflexivity|].
  destruct (f r) eqn:E; simpl; [rewrite E, IH; reflexivity | exact IH].
Qed.
End ListFacts.

(** ** Filter Engine *)

Lemma filter_mask_admits c r : filter_mask c r = true <-> admits c r.
Proof.
  unfold filter_mask, admits.
  rewrite !andb_true_iff, !Qle_bool_iff. tauto.
Qed.

Lemma not_admits_violates c r : ~ admits c r <-> violates c r.
Proof.
  unfold admits, violates. split.
  - intro H.
    destruct (Qlt_le_dec (total_annual_spend r) (spend_lo c)) as [L|L]; [tauto|].
    destruct (Qlt_le_dec (spend_hi c) (total_annual_spend r)) as [U|U]; [tauto|].
    destruct (Qlt_le_dec (blended_roas r) (min_roas c)) as [M|M]; tauto.
  - intros [H|[H|H]] (L & U & M); eapply Qlt_not_le; eassumption.
Qed.

(** C1. The Filter Engine returns exactly the records of the table with
    [lo <= total_annual_spend <= hi] and [blended_roas >= r_min], in table
    order: the result is the table with the other records struck out, every
    returned record meets both conditions, every record of the table that is
    not returned breaks one of them, and a record on a bound of the range or
    with a ROAS equal to [r_min] is returned. *)
Theorem filter_engine_exact (c : controls) (annual_df : list scenario) :
  let filtered_df := filter_engine c annual_df in
  Selects (admits c) annual_df filtered_df /\
  Subseq filtered_df annual_df /\
  (forall r, In r filtered_df <-> In r annual_df /\ admits c r) /\
  (forall r, In r annual_df -> ~ In r filtered_df -> violates c r) /\
  (forall r, In r annual_df ->
     (total_annual_spend r == spend_lo c \/ total_annual_spend r == spend_hi c) ->
     spend_lo c <= spend_hi c -> min_roas c <= blended_roas r ->
     In r filtered_df) /\
  (forall r, In r annual_df ->
     blended_roas r == min_roas c ->
     spend_lo c <= total_annual_spend r <= spend_hi c ->
     In r filtered_df).
Proof.
  intro filtered_df. unfold filtered_df, filter_engine, Frame.select.
  assert (Hin : forall r, In r (List.filter (filter_mask c) annual_df)
                          <-> In r annual_df /\ admits c r).
  { intro r. rewrite filter_In, filter_mask_admits. reflexivity. }
  split; [apply Selects_filter, filter_mask_admits|].
  split; [apply Subseq_filter|].
  split; [exact Hin|].
  split; [|split].
  - intros r Hr Hout. apply not_admits_violates. intro Ha.
    apply Hout, Hin. split; assumption.
  - intros r Hr Hb Hlh Hm. apply Hin. split; [exact Hr|].
    unfold admits. destruct Hb as [E|E]; rewrite E;
      repeat split; try apply Qle_refl; assumption.
  - intros r Hr E [L U]. apply Hin. split; [exact Hr|].
    unfold admits. rewrite E. repeat split; try apply Qle_refl; assumption.
Qed.

(** C8. Filtering the filter's own output again, with the same selections,
    changes nothing. *)
Theorem filter_engine_idempotent (c : controls) (annual_df : list scenario) :
  filter_engine c (filter_engine c annual_df) = filter_engine c annual_df.
Proof. unfold filter_engine, Frame.select. apply filter_fixed. Qed.

(** ** Threshold Scanner *)

Lemma cell_lt_Below threshold r :
  Frame.cell_lt marginal_roas_from_137m threshold r = true <-> Below threshold r.
Proof.
  unfold Frame.cell_lt, Below.
  destruct (marginal_roas_from_137m r) as [v|].
  - rewrite Qlt_bool_iff. split.
    + intro H. exists v. split; [reflexivity | exact H].
    + intros (w & E & H). injection E as <-. exact H.
  - split; [discriminate | intros (w & E & _); discriminate].
Qed.

Lemma not_Below_AtLeast threshold r :
  Frame.notna (marginal_roas_from_137m r) = true ->
  Frame.cell_lt marginal_roas_from_137m threshold r = false ->
  AtLeast threshold r.
Proof.
  unfold Frame.cell_lt, Frame.notna, AtLeast.
  destruct (marginal_roas_from_137m r) as [v|]; [|discriminate].
  intros _ H. apply Qlt_bool_false in H. exists v. split; [reflexivity | exact H].
Qed.

Lemma scanner_fold data thresholds acc :
  fold_left (scan_step data) thresholds acc
  = acc ++ flat_map (crossing_of data) thresholds.
Proof.
  revert acc. induction thresholds as [|t ts IH]; intro acc; simpl.
  - rewrite app_nil_r. reflexivity.
  - rewrite IH. unfold scan_step, crossing_of.
    destruct (Frame.select _ data); simpl.
    + reflexivity.
    + rewrite <- app_assoc. reflexivity.
Qed.

Lemma scanner_flat_map thresholds data :
  threshold_scanner thresholds data = flat_map (crossing_of data) thresholds.
Proof. unfold threshold_scanner. rewrite scanner_fold. reflexivity. Qed.

Lemma select_nil_existsb {A : Type} (f : A -> bool) l :
  Frame.select f l = [] <-> existsb f l = false.
Proof.
  unfold Frame.select. induction l as [|x l IH]; simpl; [tauto|].
  destruct (f x); simpl; [split; discriminate | exact IH].
Qed.

Lemma scanner_thresholds thresholds data :
  map cr_threshold (threshold_scanner thresholds data)
  = List.filter (has_below data) thresholds.
Proof.
  rewrite scanner_flat_map.
  induction thresholds as [|t ts IH]; simpl; [reflexivity|].
  rewrite map_app, IH. unfold crossing_of, has_below.
  destruct (Frame.select _ data) eqn:E.
  - apply select_nil_existsb in E. rewrite E. reflexivity.
  - destruct (existsb _ data) eqn:X; [reflexivity|].
    apply select_nil_existsb in X. congruence.
Qed.

(** The head of a selection is the first row that passes the mask. *)
Lemma select_head {A : Type} (f : A -> bool) l r rest :
  Frame.select f l = r :: rest ->
  exists before after,
    l = before ++ r :: after /\ f r = true /\ Forall (fun x => f x = false) before.
Proof.
  unfold Frame.select. induction l as [|x l IH]; simpl; [discriminate|].
  destruct (f x) eqn:E.
  - intro H. injection H as -> _.
    exists [], l. repeat split; [exact E | constructor].
  - intro H. destruct (IH H) as (b & a & -> & Hr & Hb).
    exists (x :: b), a. repeat split; [exact Hr | constructor; assumption].
Qed.

Lemma Forall_last_or_nil {A : Type} (P : A -> Prop) (l : list A) :
  Forall P l ->
  l = [] \/ exists earlier previous, l = earlier ++ [previous] /\ P previous.
Proof.
  intro H. destruct l as [|a l']; [left; reflexivity | right].
  destruct (@exists_last _ (a :: l')) as (e & p & Ep); [discriminate|].
  exists e, p. split; [exact Ep|].
  rewrite Ep in H. apply Forall_app in H. destruct H as [_ H].
  inversion H; assumption.
Qed.

Lemma marginal_view_notna filtered_df :
  Forall (fun r => Frame.notna (marginal_roas_from_137m r) = true)
    (marginal_view filtered_df).
Proof.
  unfold marginal_view, Frame.dropna. apply Forall_forall.
  intros r Hr. apply filter_In in Hr. apply Hr.
Qed.

Lemma crossing_of_Crossing filtered_df threshold row :
  In row (crossing_of (marginal_view filtered_df) threshold) ->
  exists first_below,
    row = crossing_row threshold first_below /\
    Crossing threshold (marginal_view filtered_df) first_below.
Proof.
  unfold crossing_of.
  destruct (Frame.select _ _) as [|r rest] eqn:E; simpl; [tauto|].
  intros [<- | []]. exists r. split; [reflexivity|].
  destruct (select_head _ _ _ _ E) as (before & after & Hd & Hr & Hb).
  assert (Hat : Forall (AtLeast threshold) before).
  { pose proof (marginal_view_notna filtered_df) as Hn.
    rewrite Hd in Hn. apply Forall_app in Hn. destruct Hn as [Hn _].
    rewrite Forall_forall in *. intros x Hx.
    apply not_Below_AtLeast; [apply Hn | apply Hb]; exact Hx. }
  exists before, after. split; [exact Hd|].
  split; [apply cell_lt_Below; exact Hr|].
  split; [exact Hat | apply Forall_last_or_nil; exact Hat].
Qed.

Lemma scanner_rows thresholds filtered_df :
  Forall (fun row =>
            In (cr_threshold row) thresholds /\
            exists first_below,
              row = crossing_row (cr_threshold row) first_below /\
              Crossing (cr_threshold row) (marginal_view filtered_df) first_below)
    (threshold_scanner thresholds (marginal_view filtered_df)).
Proof.
  rewrite scanner_flat_map. apply Forall_forall. intros row Hrow.
  apply in_flat_map in Hrow. destruct Hrow as (t & Ht & Hrow).
  destruct (crossing_of_Crossing _ _ _ Hrow) as (r & -> & Hc).
  simpl. split; [exact Ht|]. exists r. split; [reflexivity | exact Hc].
Qed.

Lemma has_below_iff data threshold :
  has_below data threshold = true <-> exists r, In r data /\ Below threshold r.
Proof.
  unfold has_below. rewrite existsb_exists.
  split; intros (r & Hr & H); exists r; (split; [exact Hr|]);
    apply cell_lt_Below; exact H.
Qed.

(** C2, the example as the specification gives it: on the three records
    and thresholds [3.0, 2.5, 2.0] the scanner does not omit 3.0; the
    reported thresholds are not [2.5, 2.0]. *)
Lemma scan_example_reports_3 :
  map cr_threshold (threshold_scanner [3.0; 2.5; 2.0] (marginal_view scan_example))
    <> [2.5; 2.0] /\
  List.length (threshold_scanner [3.0; 2.5; 2.0] (marginal_view scan_example)) = 3%nat /\
  In (crossing_row 3.0 scan_at_150)
     (threshold_scanner [3.0; 2.5; 2.0] (marginal_view scan_example)).
Proof.
  split; [|split].
  - vm_compute. discriminate.
  - reflexivity.
  - vm_compute. left. reflexivity.
Qed.

(** C2, amended. On the view the dashboard scans, the reported thresholds
    are a subsequence of the threshold list in its order: exactly the
    thresholds with a record strictly below.  Each reported row is built
    from the first record whose scanned ROAS is strictly below the
    threshold; every record before it, the one just before in particular,
    is at or above the threshold, or the crossing is the first record.  A
    threshold with no record strictly below is omitted.  On the example,
    the thresholds [3.0, 2.5, 2.0] are crossed at 150M, 150M and 200M: the
    first record, at 3.0, is not below 3.0, the second is. *)
Theorem threshold_scanner_crossings (thresholds : list Q) (filtered_df : list scenario) :
  let marginal_data := marginal_view filtered_df in
  let reported := threshold_scanner thresholds marginal_data in
  Subseq (map cr_threshold reported) thresholds /\
  map cr_threshold reported = List.filter (has_below marginal_data) thresholds /\
  Forall (fun row =>
            In (cr_threshold row) thresholds /\
            exists first_below,
              row = crossing_row (cr_threshold row) first_below /\
              Crossing (cr_threshold row) marginal_data first_below) reported /\
  (forall t, In t (map cr_threshold reported) <->
             In t thresholds /\ exists r, In r marginal_data /\ Below t r) /\
  threshold_scanner [3.0; 2.5; 2.0] (marginal_view scan_example)
  = [crossing_row 3.0 scan_at_150;
     crossing_row 2.5 scan_at_150;
     crossing_row 2.0 scan_at_200].
Proof.
  intros marginal_data reported.
  pose proof (scanner_thresholds thresholds marginal_data) as Ht.
  fold reported in Ht.
  split; [rewrite Ht; apply Subseq_filter|].
  split; [exact Ht|].
  split; [apply scanner_rows|].
  split; [|reflexivity].
  intro t. rewrite Ht, filter_In, has_below_iff. reflexivity.
Qed.

(** C5. Every row the scanner reports carries, as its incremental spend,
    the crossing record's total annual spend minus the reference spend
    (in $M, as the row shows it); the reference is the one literal
    137,200,000, the "$137M" of the labels, whatever the threshold and
    the crossing. *)
Theorem incremental_spend_from_reference (thresholds : list Q) (marginal_data : list scenario) :
  Forall (fun row =>
            exists first_below,
              In first_below marginal_data /\
              row = crossing_row (cr_threshold row) first_below /\
              cr_incremental row
              = in_millions (total_annual_spend first_below - reference_spend) /\
              cr_incremental row * mega
              == total_annual_spend first_below - reference_spend)
    (threshold_scanner thresholds marginal_data) /\
  reference_spend = inject_Z 137200000 /\
  Qfloor (in_millions reference_spend) = 137%Z.
Proof.
  split; [|split; reflexivity].
  rewrite scanner_flat_map. apply Forall_forall. intros row Hrow.
  apply in_flat_map in Hrow. destruct Hrow as (t & _ & Hrow).
  unfold crossing_of in Hrow.
  destruct (Frame.select _ marginal_data) as [|r rest] eqn:E; simpl in Hrow; [tauto|].
  destruct Hrow as [<- | []]. exists r.
  split.
  { assert (Hin : In r (Frame.select (Frame.cell_lt marginal_roas_from_137m t) marginal_data))
      by (rewrite E; left; reflexivity).
    apply filter_In in Hin. apply Hin. }
  split; [reflexivity|]. split; [reflexivity|].
  simpl. unfold in_millions. field. discriminate.
Qed.

Lemma marginal_view_In c annual_df r :
  In r (marginal_view (filter_engine c annual_df)) <->
  In r annual_df /\ admits c r /\ marginal_roas_from_137m r <> None.
Proof.
  unfold marginal_view, Frame.dropna, filter_engine, Frame.select.
  rewrite !filter_In, filter_mask_admits. unfold Frame.notna.
  destruct (marginal_roas_from_137m r); split; intros H.
  - repeat split; try apply H. discriminate.
  - repeat split; apply H.
  - destruct H as [_ H]. discriminate.
  - exfalso. apply H. reflexivity.
Qed.

(** C10. Every crossing the dashboard reports is built from a record of the
    filtered view: a record of the table that passes the spend-range and
    minimum-ROAS filter and has a marginal ROAS from the baseline; it is
    the first record of that view below the threshold.  A record that the
    filter excludes, or that lacks the value, is not in the view.  The
    first crossing in the view need not be the first one in the whole
    table: with the slider at [$100M, $1000M] every threshold of the
    dashboard is crossed at 150M, while the table's first record below
    each of them is at 50M. *)
Theorem crossings_within_filtered_view (c : controls) (annual_df : list scenario) :
  let view := marginal_view (filter_engine c annual_df) in
  Forall (fun row =>
            exists first_below,
              row = crossing_row (cr_threshold row) first_below /\
              In first_below annual_df /\
              admits c first_below /\
              Below (cr_threshold row) first_below /\
              Crossing (cr_threshold row) view first_below)
    (dashboard_crossings c annual_df) /\
  (forall r, In r view <->
             In r annual_df /\ admits c r /\ marginal_roas_from_137m r <> None) /\
  dashboard_crossings from_100 early_example
  = map (fun t => crossing_row t early_at_150) marginal_thresholds /\
  threshold_scanner marginal_thresholds (marginal_view early_example)
  = map (fun t => crossing_row t early_at_50) marginal_thresholds.
Proof.
  intro view. split; [|split; [|split; reflexivity]].
  - unfold dashboard_crossings. fold view.
    pose proof (scanner_rows marginal_thresholds (filter_engine c annual_df)) as H.
    fold view in H. rewrite Forall_forall in *. intros row Hrow.
    destruct (H row Hrow) as (_ & r & Erow & Hc).
    exists r. split; [exact Erow|].
    assert (Hin : In r view).
    { destruct Hc as (b & a & -> & _). apply in_elt. }
    apply marginal_view_In in Hin. destruct Hin as (Hin & Ha & _).
    split; [exact Hin|]. split; [exact Ha|].
    split; [|exact Hc]. destruct Hc as (b & a & _ & Hb & _). exact Hb.
  - intro r. apply marginal_view_In.
Qed.

(** ** Metric Summarizer *)

Lemma series_max_none s : Frame.series_max s = None <-> s = [].
Proof.
  destruct s as [|x s]; simpl; [tauto|].
  destruct (Frame.series_max s); split; discriminate.
Qed.

Lemma series_min_none s : Frame.series_min s = None <-> s = [].
Proof.
  destruct s as [|x s]; simpl; [tauto|].
  destruct (Frame.series_min s); split; discriminate.
Qed.

Lemma series_max_spec s m : Frame.series_max s = Some m -> Maximum m s.
Proof.
  unfold Maximum. revert m. induction s as [|x s IH]; simpl; [discriminate|].
  intro m. destruct (Frame.series_max s) as [m'|] eqn:E.
  - destruct (IH m' eq_refl) as [Hin Hall].
    destruct (Qlt_bool x m') eqn:L; intro H; injection H as <-.
    + apply Qlt_bool_iff in L. split; [right; exact Hin|].
      constructor; [apply Qlt_le_weak; exact L | exact Hall].
    + apply Qlt_bool_false in L. split; [left; reflexivity|].
      constructor; [apply Qle_refl|].
      eapply Forall_impl; [|exact Hall].
      intros y Hy. simpl in Hy. eapply Qle_trans; eassumption.
  - intro H. injection H as <-. apply series_max_none in E. subst s.
    split; [left; reflexivity | constructor; [apply Qle_refl | constructor]].
Qed.

Lemma series_min_spec s m : Frame.series_min s = Some m -> Minimum m s.
Proof.
  unfold Minimum. revert m. induction s as [|x s IH]; simpl; [discriminate|].
  intro m. destruct (Frame.series_min s) as [m'|] eqn:E.
  - destruct (IH m' eq_refl) as [Hin Hall].
    destruct (Qlt_bool m' x) eqn:L; intro H; injection H as <-.
    + apply Qlt_bool_iff in L. split; [right; exact Hin|].
      constructor; [apply Qlt_le_weak; exact L | exact Hall].
    + apply Qlt_bool_false in L. split; [left; reflexivity|].
      constructor; [apply Qle_refl|].
      eapply Forall_impl; [|exact Hall].
      intros y Hy. simpl in Hy. eapply Qle_trans; eassumption.
  - intro H. injection H as <-. apply series_min_none in E. subst s.
    split; [left; reflexivity | constructor; [apply Qle_refl | constructor]].
Qed.

Lemma series_max_some s : s <> [] -> exists m, Frame.series_max s = Some m.
Proof.
  intro H. destruct (Frame.series_max s) as [m|] eqn:E; [exists m; reflexivity|].
  apply series_max_none in E. contradiction.
Qed.

Lemma series_min_some s : s <> [] -> exists m, Frame.series_min s = Some m.
Proof.
  intro H. destruct (Frame.series_min s) as [m|] eqn:E; [exists m; reflexivity|].
  apply series_min_none in E. contradiction.
Qed.

Lemma first_at_spec {A : Type} (col : A -> Q) (m : Q) (df : list A) :
  In m (map col df) ->
  exists r before after,
    Frame.first_at col m df = Some r /\
    df = before ++ r :: after /\
    col r == m /\
    Forall (fun x => ~ col x == m) before.
Proof.
  induction df as [|x df IH]; simpl; [tauto|].
  intro Hin. destruct (Qeq_bool (col x) m) eqn:E.
  - exists x, [], df. apply Qeq_bool_iff in E.
    repeat split; [exact E | constructor].
  - destruct Hin as [Hx | Hin].
    + rewrite Hx in E. rewrite (proj2 (Qeq_bool_iff m m) (Qeq_refl m)) in E.
      discriminate.
    + destruct (IH Hin) as (r & b & a & Hf & -> & Hr & Hb).
      exists r, (x :: b), a. repeat split; try assumption.
      constructor; [|exact Hb].
      intro Heq. apply Qeq_bool_iff in Heq. congruence.
Qed.

Lemma row_idxmax_spec {A : Type} (col : A -> Q) (df : list A) :
  df <> [] ->
  exists r m,
    Frame.row_idxmax col df = Some r /\
    Frame.series_max (map col df) = Some m /\
    col r == m /\
    FirstArgmax col df r.
Proof.
  intro Hne. unfold Frame.row_idxmax.
  destruct (series_max_some (map col df)) as (m & Em).
  { intro H. apply map_eq_nil in H. contradiction. }
  rewrite Em. destruct (series_max_spec _ _ Em) as [Hin Hall].
  destruct (first_at_spec col m df Hin) as (r & b & a & Hf & Hd & Hr & Hb).
  exists r, m. repeat split; try assumption.
  exists b, a. split; [exact Hd|].
  rewrite Forall_map in Hall.
  split.
  - eapply Forall_impl; [|exact Hall]. intros x Hx. simpl in Hx. rewrite Hr. exact Hx.
  - rewrite Hd in Hall. apply Forall_app in Hall. destruct Hall as [Hall _].
    rewrite Forall_forall in *. intros x Hx. rewrite Hr.
    destruct (proj1 (Qle_lteq _ _) (Hall x Hx)) as [L | Heq]; [exact L|].
    exfalso. exact (Hb x Hx Heq).
Qed.

Lemma filter_engine_nonempty c annual_df :
  filter_engine c annual_df <> [] -> annual_df <> [].
Proof. intros H E. subst annual_df. apply H. reflexivity. Qed.

(** C4. On a non-empty filtered table the key metrics row shows: the
    number of records; the maximum [total_annual_sales] of the filtered
    table and its difference from the minimum sales of the whole table;
    the maximum [blended_roas] and its difference from the minimum ROAS of
    the whole table; and the [total_annual_spend] of the first record, in
    table order, that achieves the maximum ROAS ([Summarizes]).  Sales and
    spend are shown in $M.  On [(100M, 250M, 2.5), (200M, 400M, 2.0)]:
    maximum sales 400M, maximum ROAS 2.5, spend at the maximum ROAS 100M. *)
Theorem metric_summarizer_cards (c : controls) (annual_df : list scenario) :
  let filtered_df := filter_engine c annual_df in
  filtered_df <> [] ->
  Summarizes annual_df filtered_df /\
  Frame.series_max (map total_annual_sales summary_example) = Some 400000000 /\
  Frame.series_max (map blended_roas summary_example) = Some 2.5 /\
  option_map total_annual_spend (Frame.row_idxmax blended_roas summary_example)
  = Some 100000000 /\
  key_metrics summary_example summary_example
  = ([ Metric "Total Scenarios" (Count 2) (Count 0);
       Metric "Max Annual Sales"
         (Amount (Some (in_millions 400000000)))
         (Amount (Some (in_millions 400000000 - in_millions 250000000)));
       Metric "Best ROAS" (Amount (Some 2.5)) (Amount (Some (2.5 - 2.0)));
       Metric "Optimal Spend"
         (Amount (Some (in_millions 100000000))) (Caption "Highest ROAS") ],
     Ok tt).
Proof.
  intros filtered_df Hne. split; [|repeat split; reflexivity].
  pose proof (filter_engine_nonempty _ _ Hne) as Hann.
  fold filtered_df in Hne.
  destruct (series_max_some (map total_annual_sales filtered_df)) as (max_sales & Ems).
  { intro H. apply map_eq_nil in H. contradiction. }
  destruct (series_min_some (map total_annual_sales annual_df)) as (min_sales & Emin).
  { intro H. apply map_eq_nil in H. contradiction. }
  destruct (series_min_some (map blended_roas annual_df)) as (lowest & Elow).
  { intro H. apply map_eq_nil in H. contradiction. }
  destruct (row_idxmax_spec blended_roas filtered_df Hne)
    as (optimal & best & Eopt & Ebest & Hbest & Harg).
  exists max_sales, min_sales, best, lowest, optimal.
  split.
  - assert (Hemp : Frame.empty filtered_df = false)
      by (destruct filtered_df; [contradiction | reflexivity]).
    unfold key_metrics, total_scenarios, max_annual_sales, best_roas_card,
      optimal_spend_card.
    rewrite Hemp, Ems, Emin, Ebest, Elow, Eopt. reflexivity.
  - split; [apply series_max_spec; exact Ems|].
    split; [apply series_min_spec; exact Emin|].
    split; [unfold in_millions; field; discriminate|].
    split; [apply series_max_spec; exact Ebest|].
    split; [apply series_min_spec; exact Elow|].
    split; assumption.
Qed.

(** C4 on the example table, with selections that keep both records. *)
Lemma metric_summarizer_cards_witness :
  filter_engine (wide_open AnnualOverview) summary_example <> [] /\
  Summarizes summary_example
    (filter_engine (wide_open AnnualOverview) summary_example).
Proof.
  assert (H : filter_engine (wide_open AnnualOverview) summary_example <> [])
    by (vm_compute; discriminate).
  split; [exact H|].
  exact (proj1 (metric_summarizer_cards (wide_open AnnualOverview) summary_example H)).
Defined.

(** ** Scenario Comparator *)

Lemma rint_nearest x :
  inject_Z (rint x) - (1#2) <= x /\ x <= inject_Z (rint x) + (1#2).
Proof.
  unfold rint.
  pose proof (Qfloor_le x) as Hl. pose proof (Qlt_floor x) as Hu.
  rewrite inject_Z_plus in Hu. change (inject_Z 1) with 1 in Hu.
  destruct (Qlt_bool (2 * (x - inject_Z (Qfloor x))) 1) eqn:A.
  - apply Qlt_bool_iff in A. split; lra.
  - apply Qlt_bool_false in A.
    destruct (Qlt_bool 1 (2 * (x - inject_Z (Qfloor x)))) eqn:B.
    + apply Qlt_bool_iff in B.
      rewrite inject_Z_plus; change (inject_Z 1) with 1; split; lra.
    + apply Qlt_bool_false in B.
      destruct (Z.even (Qfloor x));
        [| rewrite inject_Z_plus; change (inject_Z 1) with 1]; split; lra.
Qed.

Lemma round_neg_nearest x : NearestMillion x (round_neg 6 x).
Proof.
  unfold NearestMillion. split; [eexists; reflexivity|].
  unfold round_neg. destruct (rint_nearest (x / pow10 6)) as [L U].
  set (n := inject_Z (rint (x / pow10 6))) in *.
  assert (E : x == (x / pow10 6) * pow10 6) by (field; discriminate).
  set (y := x / pow10 6) in *.
  change (pow10 6) with 1000000 in *.
  split; lra.
Qed.

Lemma unique_In s t : In t (unique s) -> In t s.
Proof.
  induction s as [|x s IH]; simpl; [tauto|].
  intros [H | H]; [left; exact H | right].
  apply filter_In in H. apply IH, H.
Qed.

Lemma unique_nil s : unique s = [] <-> s = [].
Proof. destruct s; simpl; split; (reflexivity || discriminate). Qed.

Lemma selectbox_In options index pick t :
  selectbox options index pick = Some t -> In t options.
Proof.
  unfold selectbox. destruct pick as [i|].
  - destruct (nth_error options i) eqn:E.
    + intro H. injection H as <-. eapply nth_error_In; exact E.
    + apply nth_error_In.
  - apply nth_error_In.
Qed.

(** With an option to choose from, a box whose default index is within the
    options returns one. *)
Lemma selectbox_some options index pick :
  options <> [] ->
  (0 <= index < Z.of_nat (List.length options))%Z ->
  exists t, selectbox options index pick = Some t.
Proof.
  intros Hne Hi. unfold selectbox.
  assert (D : exists t, nth_error options (Z.to_nat index) = Some t).
  { destruct (nth_error options (Z.to_nat index)) eqn:E; [eexists; reflexivity|].
    apply nth_error_None in E. lia. }
  destruct pick as [i|]; [|exact D].
  destruct (nth_error options i); [eexists; reflexivity | exact D].
Qed.

Lemma spend_options_In filtered_df t :
  In t (spend_options filtered_df) ->
  exists r, In r filtered_df /\
            t = round_neg 6 (total_annual_spend r) /\
            NearestMillion (total_annual_spend r) t.
Proof.
  unfold spend_options. intro H. apply unique_In, in_map_iff in H.
  destruct H as (r & <- & Hr). exists r.
  repeat split; [exact Hr | eexists; reflexivity | | ];
    apply round_neg_nearest.
Qed.

Lemma spend_options_nil filtered_df :
  spend_options filtered_df = [] <-> filtered_df = [].
Proof.
  unfold spend_options. rewrite unique_nil. split.
  - apply map_eq_nil.
  - intros ->. reflexivity.
Qed.

(** On a non-empty table each of the three boxes returns a target. *)
Lemma scenario_selection_some c filtered_df :
  filtered_df <> [] ->
  exists t1 t2 t3, scenario_selection c filtered_df = [Some t1; Some t2; Some t3].
Proof.
  intro Hne. unfold scenario_selection.
  destruct (scenario_picks c) as [[p1 p2] p3].
  assert (Hopt : spend_options filtered_df <> [])
    by (rewrite spend_options_nil; exact Hne).
  assert (Hlen : (0 < List.length (spend_options filtered_df))%nat)
    by (destruct (spend_options filtered_df); [contradiction | simpl; lia]).
  destruct (selectbox_some (spend_options filtered_df) 0 p1 Hopt) as (t1 & E1); [lia|].
  destruct (selectbox_some (spend_options filtered_df)
              (Z.min (Z.of_nat (List.length (spend_options filtered_df)) - 1) 5)
              p2 Hopt) as (t2 & E2); [lia|].
  destruct (selectbox_some (spend_options filtered_df)
              (Z.min (Z.of_nat (List.length (spend_options filtered_df)) - 1) 10)
              p3 Hopt) as (t3 & E3); [lia|].
  exists t1, t2, t3. rewrite E1, E2, E3. reflexivity.
Qed.

(** On an empty table none does. *)
Lemma scenario_selection_none c :
  scenario_selection c [] = [None; None; None].
Proof.
  unfold scenario_selection. destruct (scenario_picks c) as [[p1 p2] p3].
  simpl. destruct p1 as [[|?]|], p2 as [[|?]|], p3 as [[|?]|]; reflexivity.
Qed.

Lemma within_tolerance_iff target r :
  within_tolerance target r = true <-> InBand target r.
Proof.
  unfold within_tolerance, InBand.
  rewrite andb_true_iff, !Qle_bool_iff. reflexivity.
Qed.


(** The look-up of one target: the first record within tolerance, or an
    IndexError when there is none. *)
Lemma scenario_lookup_cases filtered_df target :
  (exists r, scenario_lookup filtered_df (Some target) = ([], Ok r) /\
             FirstWith (InBand target) filtered_df r) \/
  (scenario_lookup filtered_df (Some target) = ([], Raised IndexError) /\
   Forall (fun r => ~ InBand target r) filtered_df).
Proof.
  unfold scenario_lookup. simpl.
  destruct (Frame.select (within_tolerance target) filtered_df) as [|r rest] eqn:E.
  - right. split; [reflexivity|].
    apply select_nil_existsb in E. apply Forall_forall. intros r Hr Hb.
    apply within_tolerance_iff in Hb.
    assert (X : existsb (within_tolerance target) filtered_df = true)
      by (apply existsb_exists; exists r; split; assumption).
    congruence.
  - left. exists r. split; [reflexivity|].
    destruct (select_head _ _ _ _ E) as (b & a & Hd & Hr & Hb).
    exists b, a. split; [exact Hd|].
    split; [apply within_tolerance_iff; exact Hr|].
    eapply Forall_impl; [|exact Hb].
    intros x Hx Hband. apply within_tolerance_iff in Hband. simpl in Hx. congruence.
Qed.

Lemma comparator_found filtered_df spends :
  forall records i acc,
    Forall2 (fun selected r => scenario_lookup filtered_df selected = ([], Ok r))
      spends records ->
    comparator filtered_df i spends acc = ([], Ok (acc ++ rows_from i records)).
Proof.
  induction spends as [|s spends IH]; intros records i acc H; inversion H; subst.
  - simpl. rewrite app_nil_r. reflexivity.
  - simpl. rewrite H2. simpl. rewrite (IH _ _ _ H4), <- app_assoc. reflexivity.
Qed.





(** ** Empty selections *)

(** C3. With no record left by the filter, Annual Overview, Marginal
    Returns and Data Table draw the warning and nothing else, and the key
    metrics row draws only the record count; Scenario Comparison has no
    such guard and ends in a TypeError at the first look-up, and on a
    non-empty selection with a target that no record is within 1% of, in an
    IndexError.  So it goes in the whole dashboard with the slider at the
    value the script gives it: over the records of ROAS 2.5 and 2.0 with
    the ROAS threshold at 3.0, and, for the IndexError, over the spends
    1.4M and 2.0M with every record kept. *)
Theorem empty_selection_by_mode (c : controls) (has_marginal_137m : bool)
    (baseline_obj : pyobj) (annual_df : list scenario) :
  key_metrics annual_df []
  = ([ Metric "Total Scenarios" (Count 0)
         (Count (0 - Z.of_nat (List.length annual_df))) ], Ok tt) /\
  annual_overview []
  = ([ Header "Annual Performance Overview"; WarningBox no_match_warning ], Ok tt) /\
  marginal_returns c has_marginal_137m baseline_obj []
  = ([ Header "Marginal Returns Analysis"; WarningBox no_match_warning ], Ok tt) /\
  data_table c has_marginal_137m []
  = ([ Header "Complete Data Table"; WarningBox no_match_warning ], Ok tt) /\
  scenario_comparison c []
  = ([ Header "Scenario Comparison"; Subheader "Select Scenarios to Compare" ],
     Raised TypeError) /\
  SliderPosition summary_example (roas_above ScenarioComparison) /\
  filter_engine (roas_above ScenarioComparison) summary_example = [] /\
  snd (kpi_app (Pickled example_pickle) (roas_above ScenarioComparison))
  = Raised TypeError /\
  ~ In (WarningBox no_match_warning)
       (fst (kpi_app (Pickled example_pickle) (roas_above ScenarioComparison))) /\
  Forall (fun mode =>
            snd (kpi_app (Pickled example_pickle) (roas_above mode)) = Ok tt /\
            In (WarningBox no_match_warning)
               (fst (kpi_app (Pickled example_pickle) (roas_above mode))))
    [AnnualOverview; MarginalReturns; DataTable] /\
  SliderPosition small_pair small_default /\
  filter_engine small_default small_pair = small_pair /\
  kpi_app (Pickled small_pair_pickle) small_default
  = ([ Slider "Annual Spend Range ($M)" 1 2;
       Title "E-commerce KPI Projections 2026";
       Markdown "*Data-driven spend optimization using fitted mathematical models*";
       Metric "Total Scenarios" (Count 2) (Count 0);
       Metric "Max Annual Sales" (Amount (Some (in_millions 0)))
         (Amount (Some (in_millions 0 - in_millions 0)));
       Metric "Best ROAS" (Amount (Some 2.0)) (Amount (Some (2.0 - 2.0)));
       Metric "Optimal Spend" (Amount (Some (in_millions 1400000)))
         (Caption "Highest ROAS");
       Header "Scenario Comparison";
       Subheader "Select Scenarios to Compare" ],
     Raised IndexError).
Proof.
  split; [reflexivity|].
  split; [reflexivity|].
  split; [reflexivity|].
  split; [reflexivity|].
  split.
  { unfold scenario_comparison. rewrite scenario_selection_none. reflexivity. }
  split.
  { exists 100%Z, 200%Z. split; [reflexivity|]. simpl. lia. }
  split; [reflexivity|].
  split; [reflexivity|].
  split.
  { vm_compute. intuition discriminate. }
  split.
  { repeat constructor; vm_compute; tauto. }
  split.
  { exists 1%Z, 2%Z. split; [reflexivity|]. simpl. lia. }
  split; reflexivity.
Qed.

(** ** Data Loader *)

(** C7, as the specification states it: a file that is there but cannot be
    read does not end in the remediation message; the exception of [open]
    leaves the loader and the run. *)
Lemma unreadable_file_raises :
  load_pipeline_data Denied = ([], Raised PermissionError) /\
  load_pipeline_data Corrupt = ([], Raised UnpicklingError) /\
  kpi_app Denied (wide_open AnnualOverview) <> ([ErrorBox pipeline_missing], Stopped) /\
  kpi_app Corrupt (wide_open AnnualOverview) <> ([ErrorBox pipeline_missing], Stopped).
Proof. repeat split; (reflexivity || discriminate). Qed.

(** C7, amended. When the file is absent the loader draws the message that
    tells the user to run the pipeline first and stops; the run draws
    nothing else.  When the file is there and is a pickle, the loader
    draws nothing and returns the unpickled mapping as it is, hence with
    the five keys of a dataset that has them; the dashboard then reads
    them, and a missing one is a KeyError. *)
Theorem loader_contract (c : controls) (d : dict) :
  load_pipeline_data Absent = ([ErrorBox pipeline_missing], Stopped) /\
  kpi_app Absent c = ([ErrorBox pipeline_missing], Stopped) /\
  load_pipeline_data (Pickled d) = ([], Ok d) /\
  (Forall (has_key d) pipeline_keys ->
   exists loaded, load_pipeline_data (Pickled d) = ([], Ok loaded) /\
                  Forall (has_key loaded) pipeline_keys) /\
  Forall (has_key example_pickle) pipeline_keys /\
  (dict_get d "annual_projections" = None ->
   kpi_app (Pickled d) c = ([], Raised (KeyError "annual_projections"))).
Proof.
  split; [reflexivity|]. split; [reflexivity|]. split; [reflexivity|].
  split; [|split].
  - intro H. exists d. split; [reflexivity | exact H].
  - repeat constructor; discriminate.
  - intro H. unfold kpi_app, subscript. simpl. rewrite H. reflexivity.
Qed.

(** ** The synthetic-data dashboard *)

(** A run of the script on the linear congruential generator. *)
Example synthetic_run :
  let page s := fst (Synthetic.app Z Synthetic.lcg_draws s 2026%Z) in
  map Synthetic.untitled (page Synthetic.Baseline)
  = map Synthetic.untitled (page Synthetic.Pessimistic) /\
  List.length (flat_map Synthetic.numbers (page Synthetic.Baseline)) = 222%nat /\
  Forall (fun v => (100000 <= v < 500000)%Z)
    (Synthetic.Revenue (fst (Synthetic.sample_data Z Synthetic.lcg_draws 2026%Z))).
Proof.
  split; [reflexivity|]. split; [reflexivity|].
  apply Forall_forall. intros v Hv. vm_compute in Hv.
  repeat (destruct Hv as [<- | Hv]; [lia|]). contradiction.
Qed.

(** C9. With the generator in the same state, two selections of the
    scenario label yield the same Revenue, Costs and Profit columns over
    the 36 month ends from 2024-01-31 to 2026-12-31, the same totals, and
    leave the generator in the same state; the two pages are equal but
    for the titles of the two charts, which carry the label and differ
    when the labels do. *)
Theorem scenario_label_is_cosmetic (rng : Type)
    (randint : Z -> Z -> nat -> rng -> list Z * rng)
    (s1 s2 : Synthetic.scenario_type) (g : rng) :
  let run := Synthetic.app rng randint in
  snd (run s1 g) = snd (run s2 g) /\
  map Synthetic.untitled (fst (run s1 g)) = map Synthetic.untitled (fst (run s2 g)) /\
  flat_map Synthetic.numbers (fst (run s1 g))
  = flat_map Synthetic.numbers (fst (run s2 g)) /\
  (s1 <> s2 -> fst (run s1 g) <> fst (run s2 g)) /\
  (let df := fst (Synthetic.sample_data rng randint g) in
   let totals := [ Synthetic.series_sum (Synthetic.Revenue df);
                   Synthetic.series_sum (Synthetic.Costs df);
                   Synthetic.series_sum (Synthetic.Profit df) ] in
   Synthetic.Date df = Synthetic.dates /\
   forall s,
     flat_map Synthetic.numbers (fst (run s g))
     = (Synthetic.Revenue df ++ Synthetic.Costs df ++ Synthetic.Profit df)
       ++ totals ++ totals
       ++ (Synthetic.Revenue df ++ Synthetic.Costs df ++ Synthetic.Profit df) /\
     List.filter (fun t => match t with Some _ => true | None => false end)
       (map Synthetic.chart_title (fst (run s g)))
     = [ Some (String.append (Synthetic.label s) " Scenario - Financial Trends");
         Some (String.append (Synthetic.label s) " Scenario - Summary") ]) /\
  List.length Synthetic.dates = 36%nat /\
  hd_error Synthetic.dates = Some (Synthetic.mkDate 2024 1 31) /\
  nth_error Synthetic.dates 1 = Some (Synthetic.mkDate 2024 2 29) /\
  nth_error Synthetic.dates 35 = Some (Synthetic.mkDate 2026 12 31).
Proof.
  intro run. unfold run, Synthetic.app, Synthetic.sample_data.
  destruct (randint 100000 500000 (List.length Synthetic.dates) g)%Z as [revenue g1].
  destruct (randint 50000 200000 (List.length Synthetic.dates) g1)%Z as [costs g2].
  destruct (randint 20000 150000 (List.length Synthetic.dates) g2)%Z as [profit g3].
  simpl fst. simpl snd.
  split; [reflexivity|]. split; [reflexivity|]. split; [reflexivity|].
  split.
  { intros Hne Heq. injection Heq as Hline _.
    destruct s1, s2; try (apply Hne; reflexivity); discriminate. }
  split; [|repeat split; reflexivity].
  split; [reflexivity|].
  intro s. split.
  - simpl. rewrite !app_nil_r, <- !app_assoc. reflexivity.
  - reflexivity.
Qed.

(** ** More on the Filter Engine *)

Lemma filter_swap {A : Type} (f g : A -> bool) l :
  List.filter f (List.filter g l) = List.filter g (List.filter f l).
Proof.
  induction l as [|x l IH]; simpl; [reflexivity|].
  destruct (f x) eqn:F, (g x) eqn:G; simpl; rewrite ?F, ?G, IH; reflexivity.
Qed.

Lemma filter_absorb {A : Type} (f g : A -> bool) l :
  (forall x, f x = true -> g x = true) ->
  List.filter f (List.filter g l) = List.filter f l.
Proof.
  intro H. induction l as [|x l IH]; simpl; [reflexivity|].
  destruct (g x) eqn:G; simpl.
  - rewrite IH. reflexivity.
  - destruct (f x) eqn:F; [|exact IH]. apply H in F. congruence.
Qed.

Lemma filter_length_all {A : Type} (f : A -> bool) l :
  List.length (List.filter f l) = List.length l <-> Forall (fun x => f x = true) l.
Proof.
  induction l as [|x l IH]; simpl.
  - split; [constructor | reflexivity].
  - pose proof (filter_length_le f l) as Hle.
    destruct (f x) eqn:F; simpl.
    + split.
      * intro H. constructor; [exact F | apply IH; lia].
      * intro H. inversion H; subst. f_equal. apply IH. assumption.
    + split; [lia|]. intro H. inversion H; congruence.
Qed.

(** X1. Two selections filter in either order to the same table. *)
Theorem filter_engine_commutes (c1 c2 : controls) (annual_df : list scenario) :
  filter_engine c1 (filter_engine c2 annual_df)
  = filter_engine c2 (filter_engine c1 annual_df).
Proof. unfold filter_engine, Frame.select. apply filter_swap. Qed.

(** X2. Narrowing: a selection applied to the output of a wider one (a
    spend range that contains its own, a ROAS threshold no higher) gives
    what it gives on the whole table, a subsequence of the wider output. *)
Theorem filter_engine_narrowing (wide narrow : controls) (annual_df : list scenario) :
  spend_lo wide <= spend_lo narrow ->
  spend_hi narrow <= spend_hi wide ->
  min_roas wide <= min_roas narrow ->
  filter_engine narrow (filter_engine wide annual_df) = filter_engine narrow annual_df /\
  Subseq (filter_engine narrow annual_df) (filter_engine wide annual_df).
Proof.
  intros Hlo Hhi Hroas.
  assert (E : filter_engine narrow (filter_engine wide annual_df)
              = filter_engine narrow annual_df).
  { unfold filter_engine, Frame.select. apply filter_absorb.
    intros r H. apply filter_mask_admits in H. apply filter_mask_admits.
    destruct H as (L & U & M). unfold admits.
    repeat split; eapply Qle_trans; eassumption. }
  split; [exact E|].
  rewrite <- E. unfold filter_engine at 1. unfold Frame.select. apply Subseq_filter.
Qed.

Lemma filter_engine_narrowing_witness :
  spend_lo (wide_open MarginalReturns) <= spend_lo from_100 /\
  filter_engine from_100 (filter_engine (wide_open MarginalReturns) early_example)
  = filter_engine from_100 early_example.
Proof.
  assert (H1 : spend_lo (wide_open MarginalReturns) <= spend_lo from_100)
    by (vm_compute; discriminate).
  assert (H2 : spend_hi from_100 <= spend_hi (wide_open MarginalReturns))
    by (vm_compute; discriminate).
  assert (H3 : min_roas (wide_open MarginalReturns) <= min_roas from_100)
    by (vm_compute; discriminate).
  split; [exact H1|].
  exact (proj1 (filter_engine_narrowing (wide_open MarginalReturns) from_100
                  early_example H1 H2 H3)).
Defined.

(** X3. The first card counts the filtered records; its delta, the count
    minus the size of the whole table, is never positive, and is zero
    exactly when the filter admits every record. *)
Theorem total_scenarios_delta (c : controls) (annual_df : list scenario) :
  exists n d,
    total_scenarios annual_df (filter_engine c annual_df)
    = ([Metric "Total Scenarios" (Count n) (Count d)], Ok tt) /\
    n = Z.of_nat (List.length (filter_engine c annual_df)) /\
    (0 <= n)%Z /\ (d <= 0)%Z /\
    (n + - d = Z.of_nat (List.length annual_df))%Z /\
    (d = 0%Z <-> Forall (admits c) annual_df) /\
    (d = 0%Z <-> filter_engine c annual_df = annual_df).
Proof.
  eexists. eexists. split; [reflexivity|].
  unfold filter_engine, Frame.select.
  pose proof (filter_length_le (filter_mask c) annual_df) as Hle.
  pose proof (filter_length_all (filter_mask c) annual_df) as Hall.
  split; [reflexivity|]. split; [lia|]. split; [lia|]. split; [lia|].
  assert (Hiff : (Z.of_nat (List.length (List.filter (filter_mask c) annual_df))
                  - Z.of_nat (List.length annual_df) = 0)%Z
                 <-> Forall (admits c) annual_df).
  { split.
    - intro H. assert (L : List.length (List.filter (filter_mask c) annual_df)
                           = List.length annual_df) by lia.
      apply Hall in L. eapply Forall_impl; [|exact L].
      intros r Hr. apply filter_mask_admits. exact Hr.
    - intro H. assert (L : Forall (fun x => filter_mask c x = true) annual_df).
      { eapply Forall_impl; [|exact H]. intros r Hr. apply filter_mask_admits. exact Hr. }
      apply Hall in L. lia. }
  split; [exact Hiff|].
  rewrite Hiff. split.
  - intro H. apply forallb_filter_id. apply forallb_forall. intros r Hr.
    apply filter_mask_admits. rewrite Forall_forall in H. apply H. exact Hr.
  - intro H. apply Forall_forall. intros r Hr. rewrite <- H in Hr.
    apply filter_In in Hr. apply filter_mask_admits. apply Hr.
Qed.

(** ** More on the Metric Summarizer *)

Lemma summarizes_filtered c annual_df :
  filter_engine c annual_df <> [] ->
  Summarizes annual_df (filter_engine c annual_df).
Proof.
  intro Hne. pose proof (filter_engine_nonempty _ _ Hne) as Hann.
  set (filtered_df := filter_engine c annual_df) in *.
  destruct (series_max_some (map total_annual_sales filtered_df)) as (max_sales & Ems).
  { intro H. apply map_eq_nil in H. contradiction. }
  destruct (series_min_some (map total_annual_sales annual_df)) as (min_sales & Emin).
  { intro H. apply map_eq_nil in H. contradiction. }
  destruct (series_min_some (map blended_roas annual_df)) as (lowest & Elow).
  { intro H. apply map_eq_nil in H. contradiction. }
  destruct (row_idxmax_spec blended_roas filtered_df Hne)
    as (optimal & best & Eopt & Ebest & Hbest & Harg).
  exists max_sales, min_sales, best, lowest, optimal.
  split.
  - assert (Hemp : Frame.empty filtered_df = false)
      by (destruct filtered_df; [contradiction | reflexivity]).
    unfold key_metrics, total_scenarios, max_annual_sales, best_roas_card,
      optimal_spend_card.
    rewrite Hemp, Ems, Emin, Ebest, Elow, Eopt. reflexivity.
  - split; [apply series_max_spec; exact Ems|].
    split; [apply series_min_spec; exact Emin|].
    split; [unfold in_millions; field; discriminate|].
    split; [apply series_max_spec; exact Ebest|].
    split; [apply series_min_spec; exact Elow|].
    split; assumption.
Qed.

Lemma in_millions_le x y : x <= y -> in_millions x <= in_millions y.
Proof.
  intro H. unfold in_millions, Qdiv.
  apply Qmult_le_compat_r; [exact H | discriminate].
Qed.

Lemma Maximum_over_Minimum {A : Type} (col : A -> Q) (part whole : list A) hi lo :
  (forall r, In r part -> In r whole) ->
  Maximum hi (map col part) -> Minimum lo (map col whole) -> lo <= hi.
Proof.
  intros Hsub [Hin _] [_ Hall].
  apply in_map_iff in Hin. destruct Hin as (r & <- & Hr).
  rewrite Forall_forall in Hall. apply Hall. apply in_map. apply Hsub. exact Hr.
Qed.

(** X4. On a non-empty filtered table the deltas of the sales and ROAS
    cards are not negative; the best ROAS is at least the selected minimum,
    and the optimal spend lies within the slider's range. *)
Theorem key_metrics_within_selection (c : controls) (annual_df : list scenario) :
  let filtered_df := filter_engine c annual_df in
  filtered_df <> [] ->
  exists count sales sales_delta roas roas_delta spend,
    key_metrics annual_df filtered_df
    = ([ Metric "Total Scenarios" (Count (fst count)) (Count (snd count));
         Metric "Max Annual Sales" (Amount (Some sales)) (Amount (Some sales_delta));
         Metric "Best ROAS" (Amount (Some roas)) (Amount (Some roas_delta));
         Metric "Optimal Spend" (Amount (Some spend)) (Caption "Highest ROAS") ],
       Ok tt) /\
    0 <= sales_delta /\
    0 <= roas_delta /\
    min_roas c <= roas /\
    in_millions (spend_lo c) <= spend /\
    spend <= in_millions (spend_hi c).
Proof.
  intros filtered_df Hne.
  destruct (summarizes_filtered c annual_df Hne)
    as (ms & mn & br & lr & opt & E & Hms & Hmn & _ & Hbr & Hlr & Hopt & Harg).
  fold filtered_df in E, Hms, Hbr, Harg.
  assert (Hsub : forall r, In r filtered_df -> In r annual_df).
  { intros r Hr. apply filter_In in Hr. apply Hr. }
  exists (Z.of_nat (List.length filtered_df),
          (Z.of_nat (List.length filtered_df) - Z.of_nat (List.length annual_df))%Z).
  exists (in_millions ms), (in_millions ms - in_millions mn), br, (br - lr),
    (in_millions (total_annual_spend opt)).
  split; [exact E|].
  pose proof (Maximum_over_Minimum total_annual_sales _ _ _ _ Hsub Hms Hmn) as Hs.
  pose proof (Maximum_over_Minimum blended_roas _ _ _ _ Hsub Hbr Hlr) as Hr.
  apply in_millions_le in Hs.
  assert (Hin : In opt filtered_df).
  { destruct Harg as (b & a & -> & _). apply in_elt. }
  apply filter_In in Hin. destruct Hin as [_ Hadm].
  apply filter_mask_admits in Hadm. destruct Hadm as (L & U & M).
  split; [lra|]. split; [lra|].
  split; [rewrite <- Hopt; exact M|].
  split; apply in_millions_le; assumption.
Qed.

Lemma key_metrics_within_selection_witness :
  filter_engine from_100 early_example <> [] /\
  exists count sales sales_delta roas roas_delta spend,
    key_metrics early_example (filter_engine from_100 early_example)
    = ([ Metric "Total Scenarios" (Count (fst count)) (Count (snd count));
         Metric "Max Annual Sales" (Amount (Some sales)) (Amount (Some sales_delta));
         Metric "Best ROAS" (Amount (Some roas)) (Amount (Some roas_delta));
         Metric "Optimal Spend" (Amount (Some spend)) (Caption "Highest ROAS") ],
       Ok tt) /\
    0 <= sales_delta /\
    0 <= roas_delta /\
    min_roas from_100 <= roas /\
    in_millions (spend_lo from_100) <= spend /\
    spend <= in_millions (spend_hi from_100).
Proof.
  assert (H : filter_engine from_100 early_example <> [])
    by (vm_compute; discriminate).
  split; [exact H|].
  exact (key_metrics_within_selection from_100 early_example H).
Defined.

(** ** More on the Threshold Scanner *)

Lemma has_below_upward data low high :
  low <= high -> has_below data low = true -> has_below data high = true.
Proof.
  intros Hle H. apply has_below_iff in H. apply has_below_iff.
  destruct H as (r & Hr & v & Ev & Hv). exists r. split; [exact Hr|].
  exists v. split; [exact Ev|]. eapply Qlt_le_trans; eassumption.
Qed.

Lemma filter_none {A : Type} (p : A -> bool) (l : list A) :
  (forall x, In x l -> p x = false) -> List.filter p l = [].
Proof.
  induction l as [|x l IH]; simpl; intro H; [reflexivity|].
  rewrite (H x (or_introl eq_refl)). apply IH. intros y Hy. apply H. right. exact Hy.
Qed.

Lemma filter_upward_prefix (p : Q -> bool) (l : list Q) :
  (forall low high, low <= high -> p low = true -> p high = true) ->
  Descending l ->
  exists k, List.filter p l = firstn k l.
Proof.
  intros Hup Hs. induction Hs as [|t rest Hs IH Hall]; simpl.
  - exists 0%nat. reflexivity.
  - destruct (p t) eqn:E.
    + destruct IH as (k & Ek). exists (S k). simpl. rewrite Ek. reflexivity.
    + exists 0%nat. simpl. apply filter_none. intros x Hx.
      rewrite Forall_forall in Hall.
      destruct (p x) eqn:X; [|reflexivity].
      rewrite (Hup x t (Hall x Hx) X) in E. discriminate.
Qed.

(** X5. On a descending list of thresholds the reported thresholds are an
    initial segment of the list: once a threshold has no record below it,
    no later one has. *)
Theorem reported_thresholds_prefix (thresholds : list Q) (marginal_data : list scenario) :
  Descending thresholds ->
  exists k,
    map cr_threshold (threshold_scanner thresholds marginal_data)
    = firstn k thresholds.
Proof.
  intro Hs. rewrite scanner_thresholds.
  apply filter_upward_prefix; [|exact Hs].
  intros low high. apply has_below_upward.
Qed.

Lemma marginal_thresholds_descending : Descending marginal_thresholds.
Proof.
  unfold Descending, marginal_thresholds.
  repeat (constructor; [|repeat (constructor; [vm_compute; discriminate|]); constructor]).
  constructor.
Qed.

Lemma reported_thresholds_prefix_witness :
  Descending marginal_thresholds /\
  exists k,
    map cr_threshold (threshold_scanner marginal_thresholds scan_example)
    = firstn k marginal_thresholds.
Proof.
  split; [exact marginal_thresholds_descending|].
  exact (reported_thresholds_prefix marginal_thresholds scan_example
           marginal_thresholds_descending).
Defined.

Lemma sorted_after {A : Type} (R : A -> A -> Prop) (before : list A) x after :
  StronglySorted R (before ++ x :: after) -> Forall (R x) after.
Proof.
  induction before as [|y before IH]; simpl; intro H; inversion H; subst.
  - assumption.
  - apply IH. assumption.
Qed.

(** The crossing of a lower threshold does not come before the crossing of
    a higher one. *)
Lemma crossing_order data high low r_high r_low :
  low <= high ->
  Crossing high data r_high -> Crossing low data r_low ->
  r_high = r_low \/
  exists before between after, data = before ++ r_high :: between ++ r_low :: after.
Proof.
  intros Hle (b1 & a1 & E1 & _ & Hb1 & _) (b2 & a2 & E2 & Hlow & Hb2 & _).
  rewrite E1 in E2. apply app_eq_app in E2.
  destruct E2 as (l & [[Eb Ea] | [Eb Ea]]).
  - (* b1 = b2 ++ l *)
    destruct l as [|x l]; simpl in Ea.
    + injection Ea as <- _. left. reflexivity.
    + injection Ea as <- _. exfalso.
      rewrite Eb in Hb1. apply Forall_app in Hb1. destruct Hb1 as [_ Hb1].
      inversion Hb1 as [|? ? (v & Ev & Hv) _]; subst.
      destruct Hlow as (w & Ew & Hw). rewrite Ev in Ew. injection Ew as <-.
      apply (Qlt_irrefl v). eapply Qlt_le_trans; [exact Hw|].
      eapply Qle_trans; eassumption.
  - (* b2 = b1 ++ l *)
    destruct l as [|x l]; simpl in Ea.
    + injection Ea as -> _. left. reflexivity.
    + injection Ea as -> Ea. right. exists b1, l, a2.
      rewrite E1, Ea. reflexivity.
Qed.

(** X6. In a view in ascending order of spend, of two reported crossings
    the one of the lower threshold is at a spend at least as high, and so
    is its incremental spend. *)
Theorem lower_threshold_higher_spend (thresholds : list Q) (filtered_df : list scenario)
    (row_high row_low : crossing) :
  let marginal_data := marginal_view filtered_df in
  let reported := threshold_scanner thresholds marginal_data in
  AscendingSpend marginal_data ->
  In row_high reported -> In row_low reported ->
  cr_threshold row_low <= cr_threshold row_high ->
  cr_annual_spend row_high <= cr_annual_spend row_low /\
  cr_incremental row_high <= cr_incremental row_low.
Proof.
  intros marginal_data reported Hs Hh Hl Hle.
  pose proof (scanner_rows thresholds filtered_df) as Hrows.
  fold marginal_data in Hrows. fold reported in Hrows.
  rewrite Forall_forall in Hrows.
  destruct (Hrows _ Hh) as (_ & rh & Eh & Ch).
  destruct (Hrows _ Hl) as (_ & rl & El & Cl).
  assert (Hspend : total_annual_spend rh <= total_annual_spend rl).
  { destruct (crossing_order _ _ _ _ _ Hle Ch Cl) as [-> | (b & m & a & E)].
    - apply Qle_refl.
    - unfold AscendingSpend in Hs. rewrite E in Hs.
      apply sorted_after in Hs. rewrite Forall_forall in Hs.
      apply Hs. apply in_elt. }
  rewrite Eh, El. simpl. split; apply in_millions_le; [exact Hspend|].
  unfold Qminus. apply Qplus_le_compat; [exact Hspend | apply Qle_refl].
Qed.

Lemma scan_example_ascending : AscendingSpend (marginal_view scan_example).
Proof.
  unfold AscendingSpend. change (marginal_view scan_example) with scan_example.
  unfold scan_example.
  repeat (constructor; [|repeat (constructor; [vm_compute; discriminate|]); constructor]).
  constructor.
Qed.

Lemma lower_threshold_higher_spend_witness :
  AscendingSpend (marginal_view scan_example) /\
  cr_annual_spend (crossing_row 2.5 scan_at_150)
  <= cr_annual_spend (crossing_row 2.0 scan_at_200) /\
  cr_incremental (crossing_row 2.5 scan_at_150)
  <= cr_incremental (crossing_row 2.0 scan_at_200).
Proof.
  split; [exact scan_example_ascending|].
  apply (lower_threshold_higher_spend [3.0; 2.5; 2.0] scan_example
           (crossing_row 2.5 scan_at_150) (crossing_row 2.0 scan_at_200)
           scan_example_ascending).
  - vm_compute. right. left. reflexivity.
  - vm_compute. right. right. left. reflexivity.
  - vm_compute. discriminate.
Defined.

Lemma scanner_nil_iff thresholds data :
  threshold_scanner thresholds data = [] <->
  Forall (fun t => has_below data t = false) thresholds.
Proof.
  split.
  - intro H. pose proof (scanner_thresholds thresholds data) as E.
    rewrite H in E. simpl in E. apply Forall_forall. intros t Ht.
    destruct (has_below data t) eqn:X; [|reflexivity].
    assert (Hin : In t (List.filter (has_below data) thresholds))
      by (apply filter_In; split; assumption).
    rewrite <- E in Hin. contradiction.
  - intro H. pose proof (scanner_thresholds thresholds data) as E.
    rewrite (filter_none (has_below data) thresholds) in E.
    + destruct (threshold_scanner thresholds data); [reflexivity | discriminate].
    + rewrite Forall_forall in H. exact H.
Qed.

Lemma marginal_view_below filtered_df t :
  (exists r, In r (marginal_view filtered_df) /\ Below t r) <->
  (exists r, In r filtered_df /\ Below t r).
Proof.
  unfold marginal_view, Frame.dropna.
  split; intros (r & Hr & Hb); exists r; (split; [|exact Hb]).
  - apply filter_In in Hr. apply Hr.
  - apply filter_In. split; [exact Hr|].
    destruct Hb as (v & -> & _). reflexivity.
Qed.

Lemma below_decidable filtered_df t :
  (exists r, In r filtered_df /\ Below t r) \/
  ~ (exists r, In r filtered_df /\ Below t r).
Proof.
  rewrite <- marginal_view_below.
  destruct (has_below (marginal_view filtered_df) t) eqn:X.
  - left. apply has_below_iff. exact X.
  - right. intro H. apply has_below_iff in H. congruence.
Qed.

(** X7. With the optional column and a non-empty filtered table, the
    Marginal Returns section ends without an error, and draws the
    thresholds table exactly when some filtered record has a marginal ROAS
    from the baseline below 3.0, the highest threshold; it never draws the
    weekly table. *)
Theorem thresholds_table_drawn_iff (c : controls) (baseline_df : list baseline)
    (filtered_df : list scenario) :
  filtered_df <> [] ->
  exists page,
    marginal_returns c true (PyBaseline baseline_df) filtered_df = (page, Ok tt) /\
    ((exists rows, In (ThresholdTable rows) page) <->
     (exists r, In r filtered_df /\ Below 3.0 r)) /\
    (forall rows, In (ThresholdTable rows) page ->
       rows = threshold_scanner marginal_thresholds (marginal_view filtered_df)) /\
    (forall rows, ~ In (WeeklyThresholdTable rows) page).
Proof.
  intro Hne.
  assert (Hemp : Frame.empty filtered_df = false)
    by (destruct filtered_df; [contradiction | reflexivity]).
  unfold marginal_returns. rewrite Hemp. 
  set (rows := threshold_scanner marginal_thresholds (marginal_view filtered_df)).
  assert (Hlow : rows = [] <-> ~ exists r, In r filtered_df /\ Below 3.0 r).
  { unfold rows. rewrite scanner_nil_iff, <- marginal_view_below. split.
    - intros H (r & Hr & Hb). inversion H as [|? ? H3 _]; subst.
      assert (X : has_below (marginal_view filtered_df) 3.0 = true)
        by (apply has_below_iff; exists r; split; assumption).
      congruence.
    - intro H. apply Forall_forall. intros t Ht.
      destruct (has_below (marginal_view filtered_df) t) eqn:X; [|reflexivity].
      exfalso. apply H. apply has_below_iff.
      apply (has_below_upward _ t 3.0); [|exact X].
      simpl in Ht.
      repeat (destruct Ht as [<- | Ht]; [vm_compute; discriminate|]). contradiction. }
  destruct rows as [|row rows'] eqn:Erows.
  - eexists. split; [reflexivity|]. simpl.
    split; [|split].
    + split.
      * intros (r & Hr).
        repeat (destruct Hr as [Hr | Hr]; [discriminate|]). contradiction.
      * intro H. exfalso. apply (proj1 Hlow eq_refl). exact H.
    + intros r Hr.
      repeat (destruct Hr as [Hr | Hr]; [discriminate|]). contradiction.
    + intros r Hr.
      repeat (destruct Hr as [Hr | Hr]; [discriminate|]). contradiction.
  - eexists. split; [reflexivity|]. simpl.
    split; [|split].
    + split.
      * intros _. destruct (below_decidable filtered_df 3.0) as [H | H]; [exact H|].
        apply Hlow in H. discriminate.
      * intros _. exists (row :: rows'). do 5 right. left. reflexivity.
    + intros r Hr.
      repeat (destruct Hr as [Hr | Hr]; [try discriminate|]); [|contradiction].
      injection Hr as <-. reflexivity.
    + intros r Hr.
      repeat (destruct Hr as [Hr | Hr]; [discriminate|]). contradiction.
Qed.

Lemma thresholds_table_drawn_iff_witness :
  scan_example <> [] /\
  exists page,
    marginal_returns (wide_open MarginalReturns) true (PyBaseline []) scan_example
    = (page, Ok tt) /\
    ((exists rows, In (ThresholdTable rows) page) <->
     (exists r, In r scan_example /\ Below 3.0 r)) /\
    (forall rows, In (ThresholdTable rows) page ->
       rows = threshold_scanner marginal_thresholds (marginal_view scan_example)) /\
    (forall rows, ~ In (WeeklyThresholdTable rows) page).
Proof.
  assert (H : scan_example <> []) by discriminate.
  split; [exact H|].
  exact (thresholds_table_drawn_iff (wide_open MarginalReturns) [] scan_example H).
Defined.

(** ** The weekly fall-back of the scanner *)

Lemma weekly_cell_lt threshold b :
  Frame.cell_lt weekly_marginal_roas threshold b = true <-> WeeklyBelow threshold b.
Proof.
  unfold Frame.cell_lt, WeeklyBelow.
  destruct (weekly_marginal_roas b) as [v|].
  - rewrite Qlt_bool_iff. split.
    + intro H. exists v. split; [reflexivity | exact H].
    + intros (w & E & H). injection E as <-. exact H.
  - split; [discriminate | intros (w & E & _); discriminate].
Qed.

Lemma weekly_fold data thresholds acc :
  fold_left (weekly_step data) thresholds acc
  = acc ++ flat_map (weekly_crossing_of data) thresholds.
Proof.
  revert acc. induction thresholds as [|t ts IH]; intro acc; simpl.
  - rewrite app_nil_r. reflexivity.
  - rewrite IH. unfold weekly_step, weekly_crossing_of.
    destruct (Frame.select _ data); simpl.
    + reflexivity.
    + rewrite <- app_assoc. reflexivity.
Qed.

Lemma weekly_reported_thresholds thresholds data :
  map wc_threshold (weekly_scanner thresholds data)
  = List.filter (fun t => existsb (Frame.cell_lt weekly_marginal_roas t) data) thresholds.
Proof.
  unfold weekly_scanner. rewrite weekly_fold. simpl.
  induction thresholds as [|t ts IH]; simpl; [reflexivity|].
  rewrite map_app, IH. unfold weekly_crossing_of.
  destruct (Frame.select _ data) eqn:E.
  - apply select_nil_existsb in E. rewrite E. reflexivity.
  - destruct (existsb _ data) eqn:X; [reflexivity|].
    apply select_nil_existsb in X. congruence.
Qed.

(** X8. The weekly fall-back.  The weekly table is filtered to the rows
    whose weekly spend lies between the slider's bounds divided by 52,
    the two quotients rounded as the floats of the script are.  The
    reported thresholds are the thresholds with a filtered row strictly
    below, in the order of the list; each row of the result is built from
    the first filtered row whose marginal ROAS is there and strictly below
    the threshold (a row without the value is passed over), and shows the
    float product of its weekly spend by 52.  A row at the float
    [15e6 / 52] is kept by a slider from $15M, although 52 times its spend
    is under 15M. *)
Theorem weekly_scanner_contract (c : controls) (baseline_df : list baseline)
    (thresholds : list Q) :
  let baseline_filtered := Frame.select (baseline_mask c) baseline_df in
  let reported := weekly_scanner thresholds baseline_filtered in
  Subseq (map wc_threshold reported) thresholds /\
  (forall t, In t (map wc_threshold reported) <->
             In t thresholds /\ exists b, In b baseline_filtered /\ WeeklyBelow t b) /\
  Forall (fun row =>
            exists first_below,
              row = weekly_row (wc_threshold row) first_below /\
              In first_below baseline_df /\
              FirstWith (WeeklyBelow (wc_threshold row)) baseline_filtered first_below /\
              fdiv (spend_lo c) 52 <= wc_weekly_spend row /\
              wc_weekly_spend row <= fdiv (spend_hi c) 52 /\
              wc_annual_spend row = fmul (wc_weekly_spend row) 52)
    reported /\
  fdiv (spend_lo from_15) 52 = weekly_spend boundary_week /\
  weekly_spend boundary_week * 52 < spend_lo from_15 /\
  weekly_scanner [2.5] (Frame.select (baseline_mask from_15) [boundary_week])
  = [weekly_row 2.5 boundary_week].
Proof.
  intros baseline_filtered reported.
  pose proof (weekly_reported_thresholds thresholds baseline_filtered) as Ht.
  fold reported in Ht.
  split; [rewrite Ht; apply Subseq_filter|].
  split.
  { intro t. rewrite Ht, filter_In, existsb_exists.
    split; intros (Hin & b & Hb & H); (split; [exact Hin|]);
      exists b; (split; [exact Hb|]); apply weekly_cell_lt; exact H. }
  split; [|split; [vm_compute; reflexivity | split; [vm_compute; reflexivity|]]].
  - unfold reported, weekly_scanner. rewrite weekly_fold. cbn [app].
    apply Forall_forall. intros row Hrow.
    apply in_flat_map in Hrow. destruct Hrow as (t & _ & Hrow).
    unfold weekly_crossing_of in Hrow.
    destruct (Frame.select _ baseline_filtered) as [|b rest] eqn:E;
      cbn [In] in Hrow; [tauto|].
    destruct Hrow as [<- | []]. exists b.
    cbn [weekly_row wc_threshold wc_weekly_spend wc_annual_spend].
    destruct (select_head _ _ _ _ E) as (before & after & Hd & Hb & Hbefore).
    assert (Hin : In b baseline_filtered) by (rewrite Hd; apply in_elt).
    unfold baseline_filtered, Frame.select in Hin. apply filter_In in Hin.
    destruct Hin as [Hin Hmask]. unfold baseline_mask in Hmask.
    apply andb_true_iff in Hmask. destruct Hmask as [L U].
    apply Qle_bool_iff in L. apply Qle_bool_iff in U.
    split; [reflexivity|]. split; [exact Hin|].
    split.
    { exists before, after. split; [exact Hd|].
      split; [apply weekly_cell_lt; exact Hb|].
      eapply Forall_impl; [|exact Hbefore].
      intros x Hx Hw. apply weekly_cell_lt in Hw. cbn beta in Hx. congruence. }
    split; [exact L|]. split; [exact U | reflexivity].
  - vm_compute. reflexivity.
Qed.

(** ** More on the Scenario Comparator *)

Lemma InA_filter_neq x y l :
  InA Qeq y (List.filter (fun z => negb (Qeq_bool z x)) l) ->
  InA Qeq y l /\ ~ y == x.
Proof.
  induction l as [|z l IH]; simpl; intro H; [inversion H|].
  destruct (Qeq_bool z x) eqn:E; simpl in H.
  - destruct (IH H) as [Hin Hne]. split; [right; exact Hin | exact Hne].
  - inversion H as [? ? Hy | ? ? Hy]; subst.
    + split; [left; exact Hy|]. intro Hyx. rewrite Hy in Hyx.
      apply Qeq_bool_iff in Hyx. congruence.
    + destruct (IH Hy) as [Hin Hne]. split; [right; exact Hin | exact Hne].
Qed.

Lemma NoDupA_filter (f : Q -> bool) l : NoDupA Qeq l -> NoDupA Qeq (List.filter f l).
Proof.
  induction 1 as [|x l Hx Hl IH]; simpl; [constructor|].
  destruct (f x); [|exact IH]. constructor; [|exact IH].
  intro H. apply Hx. clear -H.
  induction l as [|z l IHl]; simpl in H; [inversion H|].
  destruct (f z).
  - inversion H; subst; [left; assumption | right; apply IHl; assumption].
  - right. apply IHl. exact H.
Qed.

Lemma unique_NoDupA s : NoDupA Qeq (unique s).
Proof.
  induction s as [|x s IH]; simpl; constructor.
  - intro H. apply InA_filter_neq in H. destruct H as [_ H]. apply H. reflexivity.
  - apply NoDupA_filter. exact IH.
Qed.

Lemma unique_covers s x : In x s -> InA Qeq x (unique s).
Proof.
  induction s as [|y s IH]; simpl; [tauto|].
  intros [-> | H]; [left; reflexivity|].
  destruct (Qeq_bool x y) eqn:E.
  - left. apply Qeq_bool_iff. exact E.
  - right. specialize (IH H). clear -IH E.
    induction (unique s) as [|z l IHl]; [inversion IH|]. simpl.
    inversion IH as [? ? Hz | ? ? Hz]; subst.
    + assert (F : Qeq_bool z y = false).
      { destruct (Qeq_bool z y) eqn:G; [|reflexivity].
        apply Qeq_bool_iff in G. rewrite <- Hz in G.
        apply Qeq_bool_iff in G. congruence. }
      rewrite F. simpl. left. exact Hz.
    + destruct (Qeq_bool z y); simpl; [|right]; apply IHl; exact Hz.
Qed.

(** X10. The options of the three select boxes are the spends of the
    filtered table rounded to the million, each value once (no two options
    are equal), every record's rounded spend among them, in the order of
    first appearance; there is an option exactly when the filtered table
    has a record. *)
Theorem spend_options_distinct (filtered_df : list scenario) :
  NoDupA Qeq (spend_options filtered_df) /\
  (forall r, In r filtered_df ->
     InA Qeq (round_neg 6 (total_annual_spend r)) (spend_options filtered_df)) /\
  (forall t, In t (spend_options filtered_df) ->
     exists r, In r filtered_df /\ t = round_neg 6 (total_annual_spend r)) /\
  hd_error (spend_options filtered_df)
  = option_map (fun r => round_neg 6 (total_annual_spend r)) (hd_error filtered_df) /\
  (spend_options filtered_df = [] <-> filtered_df = []).
Proof.
  split; [apply unique_NoDupA|].
  split.
  { intros r Hr. unfold spend_options. apply unique_covers.
    apply in_map_iff. exists r. split; [reflexivity | exact Hr]. }
  split.
  { intros t Ht. destruct (spend_options_In _ _ Ht) as (r & Hr & E & _).
    exists r. split; assumption. }
  split; [destruct filtered_df; reflexivity | apply spend_options_nil].
Qed.

(** ** When the comparator cannot fail *)

(** A spend of 50M or more lies within 1% of its rounding to the million. *)
Lemma round_within_tolerance r :
  50000000 <= total_annual_spend r ->
  InBand (round_neg 6 (total_annual_spend r)) r.
Proof.
  intro H. unfold InBand.
  destruct (round_neg_nearest (total_annual_spend r)) as [_ [L U]].
  assert (Hbig : 50000000 <= round_neg 6 (total_annual_spend r)).
  { unfold round_neg.
    destruct (rint_nearest (total_annual_spend r / pow10 6)) as [_ Un].
    assert (Hq : 50 <= total_annual_spend r / pow10 6).
    { apply Qle_shift_div_l; [reflexivity|]. exact H. }
    assert (Hn : (50 <= rint (total_annual_spend r / pow10 6))%Z).
    { assert (Hh : (99 # 2) <= inject_Z (rint (total_annual_spend r / pow10 6))) by lra.
      unfold Qle in Hh. simpl in Hh. lia. }
    rewrite Zle_Qle in Hn.
    change (inject_Z 50) with 50 in Hn.
    setoid_replace 50000000 with (50 * pow10 6) by reflexivity.
    apply Qmult_le_compat_r; [exact Hn | discriminate]. }
  set (t := round_neg 6 (total_annual_spend r)) in *.
  split; lra.
Qed.

(** X11. On a non-empty filtered table whose spends are all 50M or more
    the comparison never fails: whatever is picked in the three boxes, the
    section ends without an error and draws a table of three rows, numbered
    1 to 3, each built from a record of the filtered table within 1% of its
    target. *)
Theorem comparison_succeeds_from_50m (c : controls) (filtered_df : list scenario) :
  filtered_df <> [] ->
  Forall (fun r => 50000000 <= total_annual_spend r) filtered_df ->
  exists t1 t2 t3 r1 r2 r3,
    scenario_selection c filtered_df = [Some t1; Some t2; Some t3] /\
    scenario_comparison c filtered_df
    = ([ Header "Scenario Comparison";
         Subheader "Select Scenarios to Compare";
         ComparisonTable
           [comparison_row 1 r1; comparison_row 2 r2; comparison_row 3 r3] ],
       Ok tt) /\
    FirstWith (InBand t1) filtered_df r1 /\
    FirstWith (InBand t2) filtered_df r2 /\
    FirstWith (InBand t3) filtered_df r3.
Proof.
  intros Hne Hbig.
  destruct (scenario_selection_some c filtered_df Hne) as (t1 & t2 & t3 & Et).
  assert (Hfound : forall t, In (Some t) (scenario_selection c filtered_df) ->
                     exists r, scenario_lookup filtered_df (Some t) = ([], Ok r) /\
                               FirstWith (InBand t) filtered_df r).
  { intros t Ht.
    assert (Hopt : In t (spend_options filtered_df)).
    { unfold scenario_selection in Ht.
      destruct (scenario_picks c) as [[p1 p2] p3]. simpl in Ht.
      destruct Ht as [Ht | [Ht | [Ht | []]]]; eapply selectbox_In; exact Ht. }
    destruct (spend_options_In _ _ Hopt) as (r & Hr & -> & _).
    destruct (scenario_lookup_cases filtered_df (round_neg 6 (total_annual_spend r)))
      as [H | (_ & Hn)]; [exact H|].
    exfalso. rewrite Forall_forall in Hn, Hbig.
    apply (Hn r Hr). apply round_within_tolerance. apply Hbig. exact Hr. }
  destruct (Hfound t1) as (r1 & L1 & F1); [rewrite Et; simpl; tauto|].
  destruct (Hfound t2) as (r2 & L2 & F2); [rewrite Et; simpl; tauto|].
  destruct (Hfound t3) as (r3 & L3 & F3); [rewrite Et; simpl; tauto|].
  exists t1, t2, t3, r1, r2, r3.
  split; [exact Et|]. split; [|repeat split; assumption].
  unfold scenario_comparison. rewrite Et.
  rewrite (comparator_found filtered_df _ [r1; r2; r3]).
  - reflexivity.
  - repeat constructor; assumption.
Qed.

Lemma comparison_succeeds_from_50m_witness :
  summary_example <> [] /\
  Forall (fun r => 50000000 <= total_annual_spend r) summary_example /\
  exists t1 t2 t3 r1 r2 r3,
    scenario_selection (wide_open ScenarioComparison) summary_example
    = [Some t1; Some t2; Some t3] /\
    scenario_comparison (wide_open ScenarioComparison) summary_example
    = ([ Header "Scenario Comparison";
         Subheader "Select Scenarios to Compare";
         ComparisonTable
           [comparison_row 1 r1; comparison_row 2 r2; comparison_row 3 r3] ],
       Ok tt) /\
    FirstWith (InBand t1) summary_example r1 /\
    FirstWith (InBand t2) summary_example r2 /\
    FirstWith (InBand t3) summary_example r3.
Proof.
  assert (H1 : summary_example <> []) by discriminate.
  assert (H2 : Forall (fun r => 50000000 <= total_annual_spend r) summary_example)
    by (repeat constructor; vm_compute; discriminate).
  split; [exact H1|]. split; [exact H2|].
  exact (comparison_succeeds_from_50m (wide_open ScenarioComparison)
           summary_example H1 H2).
Defined.

(** ** Runs of the whole dashboard *)

Lemma bind_ret_l {A B : Type} (a : A) (k : A -> ui B) : bind (ret a) k = k a.
Proof. unfold bind, ret. destruct (k a). reflexivity. Qed.

(** A slider that was drawn has the bounds of lines 53-59 and passed the
    checks of [st.slider]. *)
Lemma spend_slider_drawn annual_df min_value max_value :
  spend_slider annual_df
  = ([Slider "Annual Spend Range ($M)" min_value max_value], Ok tt) ->
  exists lowest highest,
    Frame.series_min (map total_annual_spend annual_df) = Some lowest /\
    Frame.series_max (map total_annual_spend annual_df) = Some highest /\
    min_value = (py_int lowest / million)%Z /\
    max_value = (py_int highest / million)%Z /\
    slider_accepts min_value max_value = true.
Proof.
  unfold spend_slider.
  destruct (Frame.series_min (map total_annual_spend annual_df)) as [lo|];
    [|discriminate].
  destruct (Frame.series_max (map total_annual_spend annual_df)) as [hi|];
    [|discriminate].
  cbn [or_raise]. rewrite !bind_ret_l.
  destruct (slider_accepts (py_int lo / million) (py_int hi / million)) eqn:A;
    [|discriminate].
  intro H. injection H as <- <-.
  exists lo, hi. repeat split; exact A.
Qed.

(** The run of a readable dataset whose filter leaves no record, outside
    the comparison: the slider, the title, the record count, the section's
    heading and warning, then the footer. *)
Lemma empty_selection_prefix d annual c min_value max_value :
  Readable d annual ->
  spend_slider (annual_rows annual)
  = ([Slider "Annual Spend Range ($M)" min_value max_value], Ok tt) ->
  analysis_type c <> ScenarioComparison ->
  filter_engine c (annual_rows annual) = [] ->
  kpi_app (Pickled d) c
  = (empty_selection_page min_value max_value annual (analysis_type c)
     ++ fst (footer d),
     snd (footer d)).
Proof.
  intros (Ha & Hkeys) Hsl Hmode Hemp.
  unfold first_missing, startup_keys in Hkeys. simpl in Hkeys.
  rewrite Ha in Hkeys.
  destruct (dict_get d "baseline_projections") as [bo|] eqn:Eb; [|discriminate].
  destruct (dict_get d "holiday_projections") as [ho|] eqn:Eh; [|discriminate].
  destruct (dict_get d "summary_metrics") as [so|] eqn:Es; [|discriminate].
  unfold kpi_app.
  change (load_pipeline_data (Pickled d)) with (@ret dict d).
  rewrite bind_ret_l. unfold subscript.
  rewrite Ha, Eb, Eh, Es. cbn [or_raise]. rewrite !bind_ret_l.
  cbn [as_annual]. rewrite bind_ret_l. rewrite Hsl, Hemp.
  destruct (footer d) as [p3 o3].
  unfold analysis_section, empty_selection_page.
  destruct (analysis_type c); try contradiction; reflexivity.
Qed.

(** X12. A run whose filter leaves no record.  On a dataset with the five
    keys, an annual table whose slider is drawn with room between bounds
    that are not negative, and an analysis type other than Scenario
    Comparison, a selection that leaves no record gives exactly this page:
    the slider, the title and its caption, the count card showing 0, the
    section's heading, the warning, and the seven lines of the footer; the
    run ends without an error. *)
Theorem empty_selection_run_completes (d : dict) (annual : annual_frame)
    (c : controls) (stamp : string) (min_value max_value : Z) :
  Readable d annual ->
  dict_get d "data_timestamp" = Some (PyTimestamp stamp) ->
  spend_slider (annual_rows annual)
  = ([Slider "Annual Spend Range ($M)" min_value max_value], Ok tt) ->
  (0 <= min_value < max_value)%Z ->
  analysis_type c <> ScenarioComparison ->
  filter_engine c (annual_rows annual) = [] ->
  kpi_app (Pickled d) c
  = (empty_selection_page min_value max_value annual (analysis_type c)
     ++ [ Markdown "---"; Markdown "**Data Generated:**";
          Markdown (String.append "Pipeline run: " stamp);
          Markdown "**Model Details:**";
          Markdown "Mathematical models fitted to historical data";
          Markdown "**Usage:**";
          Markdown "Adjust filters to explore different scenarios" ],
     Ok tt).
Proof.
  intros Hread Ht Hsl _ Hmode Hemp.
  rewrite (empty_selection_prefix d annual c min_value max_value Hread Hsl Hmode Hemp).
  unfold footer, subscript. rewrite Ht. reflexivity.
Qed.

Lemma example_pickle_readable :
  Readable example_pickle
    {| has_137m_column := true; annual_rows := summary_example |}.
Proof. split; reflexivity. Qed.

Lemma empty_selection_run_completes_witness :
  Readable example_pickle
    {| has_137m_column := true; annual_rows := summary_example |} /\
  filter_engine (roas_above DataTable) summary_example = [] /\
  kpi_app (Pickled example_pickle) (roas_above DataTable)
  = (empty_selection_page 100 200
       {| has_137m_column := true; annual_rows := summary_example |} DataTable
     ++ [ Markdown "---"; Markdown "**Data Generated:**";
          Markdown "Pipeline run: 2026-01-01 00:00";
          Markdown "**Model Details:**";
          Markdown "Mathematical models fitted to historical data";
          Markdown "**Usage:**";
          Markdown "Adjust filters to explore different scenarios" ],
     Ok tt).
Proof.
  assert (H1 : (0 <= 100 < 200)%Z) by lia.
  assert (H2 : analysis_type (roas_above DataTable) <> ScenarioComparison)
    by discriminate.
  assert (H3 : filter_engine (roas_above DataTable) summary_example = [])
    by reflexivity.
  split; [exact example_pickle_readable|]. split; [exact H3|].
  exact (empty_selection_run_completes example_pickle
           {| has_137m_column := true; annual_rows := summary_example |}
           (roas_above DataTable) "2026-01-01 00:00" 100 200
           example_pickle_readable eq_refl eq_refl H1 H2 H3).
Defined.

(** X13. The same run on a dataset that lacks the time of the pipeline's
    run: the page is drawn down to the footer's first heading, and only
    then the run ends in a KeyError; the missing key is found last. *)
Theorem missing_timestamp_raises_late (d : dict) (annual : annual_frame)
    (c : controls) (min_value max_value : Z) :
  Readable d annual ->
  dict_get d "data_timestamp" = None ->
  spend_slider (annual_rows annual)
  = ([Slider "Annual Spend Range ($M)" min_value max_value], Ok tt) ->
  (0 <= min_value < max_value)%Z ->
  analysis_type c <> ScenarioComparison ->
  filter_engine c (annual_rows annual) = [] ->
  kpi_app (Pickled d) c
  = (empty_selection_page min_value max_value annual (analysis_type c)
     ++ [Markdown "---"; Markdown "**Data Generated:**"],
     Raised (KeyError "data_timestamp")).
Proof.
  intros Hread Ht Hsl _ Hmode Hemp.
  rewrite (empty_selection_prefix d annual c min_value max_value Hread Hsl Hmode Hemp).
  unfold footer, subscript. rewrite Ht. reflexivity.
Qed.

Lemma missing_timestamp_raises_late_witness :
  Readable no_timestamp_pickle
    {| has_137m_column := true; annual_rows := summary_example |} /\
  dict_get no_timestamp_pickle "data_timestamp" = None /\
  kpi_app (Pickled no_timestamp_pickle) (roas_above AnnualOverview)
  = (empty_selection_page 100 200
       {| has_137m_column := true; annual_rows := summary_example |} AnnualOverview
     ++ [Markdown "---"; Markdown "**Data Generated:**"],
     Raised (KeyError "data_timestamp")).
Proof.
  assert (H0 : Readable no_timestamp_pickle
                 {| has_137m_column := true; annual_rows := summary_example |})
    by (split; reflexivity).
  assert (H1 : (0 <= 100 < 200)%Z) by lia.
  assert (H2 : analysis_type (roas_above AnnualOverview) <> ScenarioComparison)
    by discriminate.
  split; [exact H0|]. split; [reflexivity|].
  exact (missing_timestamp_raises_late no_timestamp_pickle
           {| has_137m_column := true; annual_rows := summary_example |}
           (roas_above AnnualOverview) 100 200
           H0 eq_refl eq_refl H1 H2 eq_refl).
Defined.

(** X14. A dataset that lacks one of the four keys read at start-up ends
    in the KeyError of the first of them that is missing, in the order
    annual, baseline, holiday, summary, before anything is drawn; so the
    holiday table and the summary mapping must be there although nothing
    reads into them. *)
Theorem missing_key_raises_first (d : dict) (c : controls) (key : string) :
  first_missing d startup_keys = Some key ->
  kpi_app (Pickled d) c = ([], Raised (KeyError key)).
Proof.
  unfold first_missing, startup_keys. simpl.
  unfold kpi_app.
  change (load_pipeline_data (Pickled d)) with (@ret dict d).
  rewrite bind_ret_l. unfold subscript.
  destruct (dict_get d "annual_projections");
    [|intro H; injection H as <-; reflexivity].
  cbn [or_raise]. rewrite bind_ret_l.
  destruct (dict_get d "baseline_projections");
    [|intro H; injection H as <-; reflexivity].
  cbn [or_raise]. rewrite bind_ret_l.
  destruct (dict_get d "holiday_projections");
    [|intro H; injection H as <-; reflexivity].
  cbn [or_raise]. rewrite bind_ret_l.
  destruct (dict_get d "summary_metrics");
    [|intro H; injection H as <-; reflexivity].
  discriminate.
Qed.

(** X15. A dataset whose annual table has no record ends in a ValueError
    at the slider's bounds, before anything is drawn. *)
Theorem empty_annual_table_raises (d : dict) (annual : annual_frame) (c : controls) :
  first_missing d startup_keys = None ->
  dict_get d "annual_projections" = Some (PyAnnual annual) ->
  annual_rows annual = [] ->
  kpi_app (Pickled d) c = ([], Raised ValueError).
Proof.
  unfold first_missing, startup_keys. simpl. intros Hkeys Ha Hrows.
  unfold kpi_app.
  change (load_pipeline_data (Pickled d)) with (@ret dict d).
  rewrite bind_ret_l. unfold subscript. rewrite Ha in *.
  cbn [or_raise]. rewrite bind_ret_l.
  destruct (dict_get d "baseline_projections"); [|discriminate].
  cbn [or_raise]. rewrite bind_ret_l.
  destruct (dict_get d "holiday_projections"); [|discriminate].
  cbn [or_raise]. rewrite bind_ret_l.
  destruct (dict_get d "summary_metrics"); [|discriminate].
  cbn [or_raise]. rewrite bind_ret_l.
  cbn [as_annual]. rewrite bind_ret_l. rewrite Hrows. reflexivity.
Qed.

Lemma missing_key_raises_first_witness :
  first_missing tables_only_pickle startup_keys = Some "holiday_projections" /\
  kpi_app (Pickled tables_only_pickle) (wide_open AnnualOverview)
  = ([], Raised (KeyError "holiday_projections")).
Proof.
  assert (H : first_missing tables_only_pickle startup_keys
              = Some "holiday_projections") by reflexivity.
  split; [exact H|].
  exact (missing_key_raises_first tables_only_pickle (wide_open AnnualOverview)
           "holiday_projections" H).
Defined.

Lemma empty_annual_table_raises_witness :
  first_missing empty_table_pickle startup_keys = None /\
  kpi_app (Pickled empty_table_pickle) (wide_open AnnualOverview)
  = ([], Raised ValueError).
Proof.
  assert (H : first_missing empty_table_pickle startup_keys = None) by reflexivity.
  split; [exact H|].
  exact (empty_annual_table_raises empty_table_pickle
           {| has_137m_column := true; annual_rows := [] |}
           (wide_open AnnualOverview) H eq_refl eq_refl).
Defined.

(** ** The slider's bounds *)

Lemma py_int_floor x : 0 <= x -> py_int x = Qfloor x.
Proof.
  intro H. unfold py_int, Qfloor. destruct x as [n p]. simpl.
  apply Z.quot_div_nonneg; [|lia].
  unfold Qle in H. simpl in H. lia.
Qed.

Lemma whole_millions_below x :
  0 <= x -> inject_Z (py_int x / million * million) <= x.
Proof.
  intro H. rewrite (py_int_floor x H).
  eapply Qle_trans; [|apply Qfloor_le].
  rewrite <- Zle_Qle. unfold million.
  pose proof (Z.mul_div_le (Qfloor x) 1000000). lia.
Qed.

(** X16. The slider runs from the lowest to the highest spend of the
    table, each cut down to whole millions.  With the slider's upper end at
    its maximum, its lower end at or under its minimum, and the ROAS
    threshold passed, the filter returns the records
    whose spend is at most the upper bound in millions: a record is left
    out exactly when its spend is above that, as the record of the highest
    spend is when that spend is not a whole number of millions. *)
Theorem slider_full_range (annual_df : list scenario) (low high : Z) (c : controls) :
  spend_slider annual_df = ([Slider "Annual Spend Range ($M)" low high], Ok tt) ->
  (fst (spend_range c) <= low)%Z ->
  snd (spend_range c) = high ->
  Forall (fun r => 0 <= total_annual_spend r) annual_df ->
  exists highest,
    Frame.series_max (map total_annual_spend annual_df) = Some highest /\
    inject_Z (high * million) <= highest /\
    highest < inject_Z ((high + 1) * million) /\
    (forall r, In r annual_df -> min_roas c <= blended_roas r ->
       (In r (filter_engine c annual_df)
        <-> total_annual_spend r <= inject_Z (high * million))) /\
    (inject_Z (high * million) < highest ->
     forall r, In r (filter_engine c annual_df) -> total_annual_spend r < highest).
Proof.
  intros Hsl Hfst Hsnd Hpos.
  destruct (spend_slider_drawn _ _ _ Hsl) as (lo & hi & Elo & Ehi & -> & -> & _).
  assert (Hlo_c : spend_lo c <= inject_Z (py_int lo / million * million)).
  { unfold spend_lo. rewrite <- Zle_Qle.
    apply Z.mul_le_mono_nonneg_r; [unfold million; lia | exact Hfst]. }
  assert (Hhi_c : spend_hi c = inject_Z (py_int hi / million * million)).
  { unfold spend_hi. rewrite Hsnd. reflexivity. }
  destruct (series_min_spec _ _ Elo) as [Hlo_in Hlo_all].
  destruct (series_max_spec _ _ Ehi) as [Hhi_in Hhi_all].
  assert (Hnn : forall x, In x (map total_annual_spend annual_df) -> 0 <= x).
  { intros x Hx. apply in_map_iff in Hx. destruct Hx as (r & <- & Hr).
    rewrite Forall_forall in Hpos. apply Hpos. exact Hr. }
  pose proof (whole_millions_below lo (Hnn lo Hlo_in)) as Hlow.
  pose proof (whole_millions_below hi (Hnn hi Hhi_in)) as Hhigh.
  exists hi. split; [exact Ehi|]. split; [exact Hhigh|].
  split.
  { rewrite (py_int_floor hi (Hnn hi Hhi_in)).
    eapply Qlt_le_trans; [apply Qlt_floor|].
    rewrite <- Zle_Qle. unfold million.
    pose proof (Z.mul_succ_div_gt (Qfloor hi) 1000000). lia. }
  assert (Hiff : forall r, In r annual_df -> min_roas c <= blended_roas r ->
            (In r (filter_engine c annual_df)
             <-> total_annual_spend r <= inject_Z (py_int hi / million * million))).
  { intros r Hr Hroas. unfold filter_engine, Frame.select.
    rewrite filter_In, filter_mask_admits. unfold admits. rewrite Hhi_c. split.
    - intros (_ & _ & U & _). exact U.
    - intro U. split; [exact Hr|]. split; [|split; assumption].
      eapply Qle_trans; [exact Hlo_c|]. eapply Qle_trans; [exact Hlow|].
      rewrite Forall_forall in Hlo_all. apply Hlo_all. apply in_map. exact Hr. }
  split; [exact Hiff|].
  intros Hfrac r Hr.
  assert (Hin : In r annual_df).
  { unfold filter_engine, Frame.select in Hr. apply filter_In in Hr. apply Hr. }
  assert (Hadm : admits c r).
  { unfold filter_engine, Frame.select in Hr. apply filter_In in Hr.
    apply filter_mask_admits. apply Hr. }
  destruct Hadm as (_ & U & _). rewrite Hhi_c in U.
  eapply Qle_lt_trans; eassumption.
Qed.

Lemma slider_full_range_witness :
  spend_slider fractional_example
  = ([Slider "Annual Spend Range ($M)" 100 200], Ok tt) /\
  exists highest,
    Frame.series_max (map total_annual_spend fractional_example) = Some highest /\
    inject_Z (200 * million) <= highest /\
    highest < inject_Z ((200 + 1) * million) /\
    (forall r, In r fractional_example ->
       min_roas (full_range 100 200) <= blended_roas r ->
       (In r (filter_engine (full_range 100 200) fractional_example)
        <-> total_annual_spend r <= inject_Z (200 * million))) /\
    (inject_Z (200 * million) < highest ->
     forall r, In r (filter_engine (full_range 100 200) fractional_example) ->
       total_annual_spend r < highest).
Proof.
  assert (H1 : spend_slider fractional_example
               = ([Slider "Annual Spend Range ($M)" 100 200], Ok tt)) by reflexivity.
  assert (H3 : Forall (fun r => 0 <= total_annual_spend r) fractional_example)
    by (repeat constructor; vm_compute; discriminate).
  split; [exact H1|].
  assert (H2 : (fst (spend_range (full_range 100 200)) <= 100)%Z)
    by (vm_compute; discriminate).
  exact (slider_full_range fractional_example 100 200 (full_range 100 200)
           H1 H2 eq_refl H3).
Defined.

(** ** More on the synthetic-data dashboard *)

Lemma series_sum_acc s acc :
  fold_left Z.add s acc = (acc + Synthetic.series_sum s)%Z.
Proof.
  unfold Synthetic.series_sum. revert acc.
  induction s as [|x s IH]; intro acc; simpl; [lia|].
  rewrite IH, (IH x). lia.
Qed.

Lemma series_sum_bounds low high s :
  Forall (fun v => (low <= v < high)%Z) s ->
  (Z.of_nat (List.length s) * low <= Synthetic.series_sum s
   <= Z.of_nat (List.length s) * (high - 1))%Z.
Proof.
  induction 1 as [|x s Hx Hs IH].
  - simpl. unfold Synthetic.series_sum. simpl. lia.
  - unfold Synthetic.series_sum. cbn [fold_left List.length].
    rewrite series_sum_acc. nia.
Qed.

Lemma lcg_draws_contract : RandintContract Synthetic.lcg_draws.
Proof.
  intros low high n. induction n as [|n IH]; intros g Hlt.
  - split; [reflexivity | constructor].
  - cbn [Synthetic.lcg_draws].
    set (g' := ((1103515245 * g + 12345) mod 2147483648)%Z).
    specialize (IH g' Hlt).
    destruct (Synthetic.lcg_draws low high n g') as [rest g''].
    cbn [fst] in *. destruct IH as [Hlen Hall].
    split; [cbn [List.length]; rewrite Hlen; reflexivity|].
    constructor; [|exact Hall].
    assert (Hpos : (0 < high - low)%Z) by lia.
    pose proof (Z.mod_pos_bound g' (high - low) Hpos). lia.
Qed.

(** X17. With a generator that keeps numpy's promise the three columns
    have 36 entries each, one per month end, Revenue within
    [100000, 500000), Costs within [50000, 200000) and Profit within
    [20000, 150000); the totals on the cards and bars lie between 36
    times the least and 36 times the greatest draw. *)
Theorem synthetic_columns_and_totals (rng : Type)
    (randint : Z -> Z -> nat -> rng -> list Z * rng) (g : rng) :
  RandintContract randint ->
  let df := fst (Synthetic.sample_data rng randint g) in
  List.length (Synthetic.Date df) = 36%nat /\
  List.length (Synthetic.Revenue df) = 36%nat /\
  List.length (Synthetic.Costs df) = 36%nat /\
  List.length (Synthetic.Profit df) = 36%nat /\
  Forall (fun v => (100000 <= v < 500000)%Z) (Synthetic.Revenue df) /\
  Forall (fun v => (50000 <= v < 200000)%Z) (Synthetic.Costs df) /\
  Forall (fun v => (20000 <= v < 150000)%Z) (Synthetic.Profit df) /\
  (3600000 <= Synthetic.series_sum (Synthetic.Revenue df) <= 17999964)%Z /\
  (1800000 <= Synthetic.series_sum (Synthetic.Costs df) <= 7199964)%Z /\
  (720000 <= Synthetic.series_sum (Synthetic.Profit df) <= 5399964)%Z.
Proof.
  intros Hc df. unfold df, Synthetic.sample_data.
  change (List.length Synthetic.dates) with 36%nat.
  destruct (Hc 100000 500000 36%nat g)%Z as [L1 F1]; [lia|].
  destruct (randint 100000 500000 36%nat g)%Z as [revenue g1].
  destruct (Hc 50000 200000 36%nat g1)%Z as [L2 F2]; [lia|].
  destruct (randint 50000 200000 36%nat g1)%Z as [costs g2].
  destruct (Hc 20000 150000 36%nat g2)%Z as [L3 F3]; [lia|].
  destruct (randint 20000 150000 36%nat g2)%Z as [profit g3].
  simpl in *.
  pose proof (series_sum_bounds _ _ _ F1) as B1.
  pose proof (series_sum_bounds _ _ _ F2) as B2.
  pose proof (series_sum_bounds _ _ _ F3) as B3.
  rewrite L1 in B1. rewrite L2 in B2. rewrite L3 in B3.
  repeat split; try assumption; try reflexivity; lia.
Qed.

Lemma synthetic_columns_and_totals_witness :
  RandintContract Synthetic.lcg_draws /\
  (3600000 <= Synthetic.series_sum
                (Synthetic.Revenue (fst (Synthetic.sample_data Z Synthetic.lcg_draws 2026%Z)))
   <= 17999964)%Z.
Proof.
  split; [exact lcg_draws_contract|].
  exact (proj1 (proj2 (proj2 (proj2 (proj2 (proj2 (proj2 (proj2
           (synthetic_columns_and_totals Z Synthetic.lcg_draws 2026%Z
              lcg_draws_contract))))))))).
Defined.
